(** * Decay-Chains: the isomer identifier codec and the decay-file loader

    A shallow embedding of [sample_solution/isomer_data.py] (class
    [IsomerData]) and the properties of its identifier conversions and of
    its constructor.

    Conventions of the embedding.
    - A Python [str] is a [string]; a character is a code point in 0..255.
    - A Python [int] is a [Z].
    - A call that may raise returns a [result]: [Ok v] or [Raise e].
    - The element table ([sample_solution/element_info.py]), the float
      arithmetic of the interpreter and the file system are interfaces the
      functions are parameterised by. *)

From Stdlib Require Import ZArith List Bool Ascii String Lia.
Import ListNotations.

Open Scope string_scope.
Open Scope Z_scope.

(* ================================================================== *)
(** ** Exceptions and the error monad *)

Inductive exn : Type :=
| ValueError (msg : string)          (* raise ValueError(msg) in the source *)
| IntValueError (literal : string)   (* the ValueError of int(literal) *)
| FloatValueError (literal : string) (* the ValueError of float(literal) *)
| ZeroDivisionError
| IndexError                         (* list index out of range *)
| UnboundLocalError (var : string)
| ElementLookupError                 (* raised by ElementInfo *)
| FileError (path : string).         (* open(path) failed *)

Inductive result (A : Type) : Type :=
| Ok (v : A)
| Raise (e : exn).

Arguments Ok {A} v.
Arguments Raise {A} e.

Definition bind {A B : Type} (m : result A) (k : A -> result B) : result B :=
  match m with
  | Ok v => k v
  | Raise e => Raise e
  end.

Notation "x <- m ;; k" := (bind m (fun x => k))
  (at level 61, m at next level, right associativity).
Notation "' p <- m ;; k" := (bind m (fun x => let p := x in k))
  (at level 61, p pattern, m at next level, right associativity).

(** The data-format errors of the specification are Python [ValueError]s. *)
Definition is_value_error (e : exn) : bool :=
  match e with
  | ValueError _ | IntValueError _ | FloatValueError _ => true
  | _ => false
  end.

(* ================================================================== *)
(** ** The Python built-ins the source calls *)

Module Py.

(** [s[:n]] and [s[n:]] for a non-negative [n]. *)
Fixpoint take (n : nat) (s : string) : string :=
  match n, s with
  | O, _ => EmptyString
  | S _, EmptyString => EmptyString
  | S k, String c r => String c (take k r)
  end.

Fixpoint drop (n : nat) (s : string) : string :=
  match n, s with
  | O, _ => s
  | S _, EmptyString => EmptyString
  | S k, String _ r => drop k r
  end.

(** [s[i:j]] for non-negative [i], [j]. *)
Definition slice (i j : nat) (s : string) : string :=
  take (j - i) (drop i s).

(** Every character of [s] satisfies [p]. *)
Fixpoint all_chars (p : ascii -> bool) (s : string) : bool :=
  match s with
  | EmptyString => true
  | String c r => p c && all_chars p r
  end.

Definition code (c : ascii) : nat := nat_of_ascii c.

Definition is_digit (c : ascii) : bool :=
  ((48 <=? code c) && (code c <=? 57))%nat.

(** [str.isnumeric] on one character: the decimal digits, and within
    0..255 also the superscripts U+00B2, U+00B3, U+00B9 and the vulgar
    fractions U+00BC..U+00BE. *)
Definition isnumeric (c : ascii) : bool :=
  is_digit c
  || (code c =? 178)%nat || (code c =? 179)%nat || (code c =? 185)%nat
  || ((188 <=? code c) && (code c <=? 190))%nat.

(** [str.isspace] on one character, within 0..255. *)
Definition isspace (c : ascii) : bool :=
  ((9 <=? code c) && (code c <=? 13))%nat
  || ((28 <=? code c) && (code c <=? 32))%nat
  || (code c =? 133)%nat || (code c =? 160)%nat.

(** [s.split(sep)] for a separator of one character: the result is never
    empty, and [k] separators give [k + 1] pieces. *)
Fixpoint split (sep : ascii) (s : string) : list string :=
  match s with
  | EmptyString => [EmptyString]
  | String c r =>
      if Ascii.eqb c sep then EmptyString :: split sep r
      else match split sep r with
           | p :: ps => String c p :: ps
           | [] => [String c EmptyString]
           end
  end.

(** [s.split()]: the maximal runs of non-whitespace characters.  [cur] is
    the run being read; [None] between runs. *)
Fixpoint split_ws_aux (cur : option string) (s : string) : list string :=
  match s with
  | EmptyString =>
      match cur with
      | Some w => [w]
      | None => []
      end
  | String c r =>
      if isspace c then
        match cur with
        | Some w => w :: split_ws_aux None r
        | None => split_ws_aux None r
        end
      else
        match cur with
        | Some w => split_ws_aux (Some (w ++ String c EmptyString)) r
        | None => split_ws_aux (Some (String c EmptyString)) r
        end
  end.

Definition split_ws (s : string) : list string := split_ws_aux None s.

(** [l[i]], raising IndexError out of range. *)
Definition index {A : Type} (l : list A) (i : nat) : result A :=
  match nth_error l i with
  | Some x => Ok x
  | None => Raise IndexError
  end.

(** [str(n)] for an integer.  CPython refuses to convert an integer of
    more than [int_max_str_digits] digits to or from a string; that limit
    is not part of [str] and [int] below, and the statements that reach it
    carry it as a hypothesis. *)
Definition int_max_str_digits : Z := 4300.

Definition digit_char (d : Z) : ascii := ascii_of_nat (48 + Z.to_nat d).

Fixpoint str_of_nonneg (fuel : nat) (n : Z) (acc : string) : string :=
  match fuel with
  | O => acc
  | S f =>
      let acc' := String (digit_char (n mod 10)) acc in
      if n <? 10 then acc' else str_of_nonneg f (n / 10) acc'
  end.

Definition digits_fuel (n : Z) : nat := S (Z.to_nat (Z.log2 n)).

Definition str (n : Z) : string :=
  if n <? 0
  then String "-" (str_of_nonneg (digits_fuel (- n)) (- n) EmptyString)
  else str_of_nonneg (digits_fuel n) n EmptyString.

(** [s.zfill(width)]: zeros on the left, after a leading sign. *)
Fixpoint zeros (k : nat) (s : string) : string :=
  match k with
  | O => s
  | S k' => String "0" (zeros k' s)
  end.

Definition zfill (width : nat) (s : string) : string :=
  let k := (width - String.length s)%nat in
  match s with
  | String c r =>
      if Ascii.eqb c "+" || Ascii.eqb c "-" then String c (zeros k r)
      else zeros k s
  | EmptyString => zeros k s
  end.

(** [int(s)] in base 10: surrounding whitespace is dropped, one sign is
    allowed, and the digits may be grouped by single underscores.  The
    whitespace [int] drops is narrower than [str.isspace]: the separators
    U+001C..U+001F are kept (and make the literal invalid), while the
    non-ASCII spaces U+0085 and U+00A0 are dropped. *)
Definition int_space (c : ascii) : bool :=
  ((9 <=? code c) && (code c <=? 13))%nat
  || (code c =? 32)%nat || (code c =? 133)%nat || (code c =? 160)%nat.

Fixpoint lstrip (s : string) : string :=
  match s with
  | String c r => if int_space c then lstrip r else s
  | EmptyString => EmptyString
  end.

Fixpoint rstrip (s : string) : string :=
  match s with
  | EmptyString => EmptyString
  | String c r =>
      match rstrip r with
      | EmptyString => if int_space c then EmptyString else String c EmptyString
      | r' => String c r'
      end
  end.

Definition strip (s : string) : string := rstrip (lstrip s).

Definition digit_val (c : ascii) : Z := Z.of_nat (code c) - 48.

(** [after_digit] tells whether the previous character was a digit: only
    then may the literal end or an underscore follow. *)
Fixpoint int_digits (after_digit : bool) (v : Z) (s : string) : option Z :=
  match s with
  | EmptyString => if after_digit then Some v else None
  | String c r =>
      if is_digit c then int_digits true (10 * v + digit_val c) r
      else if Ascii.eqb c "_" && after_digit then int_digits false v r
      else None
  end.

Definition int_signed (s : string) : option Z :=
  match s with
  | String c r =>
      if Ascii.eqb c "-" then option_map Z.opp (int_digits false 0 r)
      else if Ascii.eqb c "+" then int_digits false 0 r
      else int_digits false 0 s
  | EmptyString => None
  end.

Definition int (s : string) : result Z :=
  match int_signed (strip s) with
  | Some v => Ok v
  | None => Raise (IntValueError s)
  end.

(** [posixpath.join(a, b)]. *)
Definition ends_with_slash (s : string) : bool :=
  match drop (String.length s - 1) s with
  | String c EmptyString => Ascii.eqb c "/"
  | _ => false
  end.

Definition os_path_join (a b : string) : string :=
  match b with
  | String "/" _ => b
  | _ =>
      match a with
      | EmptyString => b
      | _ => if ends_with_slash a then a ++ b else a ++ "/" ++ b
      end
  end.

End Py.

(* ================================================================== *)
(** ** The collaborators *)

(** [ElementInfo]: the element table of [element_info.py].  [None] is the
    lookup error of the table. *)
Class ElementInfo : Type := {
  get_element_symbol_from_atomic_number : Z -> option string;
  get_atomic_number_from_element_symbol : string -> option Z
}.

Definition no_numeric (s : string) : bool :=
  Py.all_chars (fun c => negb (Py.isnumeric c)) s.

Definition no_char (x : ascii) (s : string) : bool :=
  Py.all_chars (fun c => negb (Ascii.eqb c x)) s.

(** What the codec relies on: the two directions of the table agree, and
    a symbol has neither a numeric character nor an underscore. *)
Class ElementInfoLaws (E : ElementInfo) : Prop := {
  symbol_number :
    forall a s, get_element_symbol_from_atomic_number a = Some s ->
                get_atomic_number_from_element_symbol s = Some a;
  symbol_no_numeric :
    forall a s, get_element_symbol_from_atomic_number a = Some s ->
                no_numeric s = true;
  symbol_no_underscore :
    forall a s, get_element_symbol_from_atomic_number a = Some s ->
                no_char "_" s = true
}.

Definition lookup_symbol {E : ElementInfo} (a : Z) : result string :=
  match get_element_symbol_from_atomic_number a with
  | Some s => Ok s
  | None => Raise ElementLookupError
  end.

Definition lookup_number {E : ElementInfo} (s : string) : result Z :=
  match get_atomic_number_from_element_symbol s with
  | Some a => Ok a
  | None => Raise ElementLookupError
  end.

(* ================================================================== *)
(** ** The identifier codec *)

Section Codec.

Context {E : ElementInfo}.

(** The optional [m<energy_state>] suffix: [if energy_state:]. *)
Definition energy_suffix (energy_state : Z) : string :=
  if energy_state =? 0 then EmptyString else "m" ++ Py.str energy_state.

Definition filename_from_nuclear_data (atomic_number atomic_mass energy_state : Z)
  : result string :=
  symbol <- lookup_symbol atomic_number ;;
  let filename :=
    "dec-" ++ Py.zfill 3 (Py.str atomic_number) ++ "_" ++ symbol ++ "_"
           ++ Py.zfill 3 (Py.str atomic_mass) in
  let filename := filename ++ energy_suffix energy_state in
  let filename := filename ++ ".endf" in
  Ok filename.

Definition isomer_name_from_nuclear_data (atomic_number atomic_mass energy_state : Z)
  : result string :=
  symbol <- lookup_symbol atomic_number ;;
  let isomer_name := symbol ++ Py.str atomic_mass in
  let isomer_name := isomer_name ++ energy_suffix energy_state in
  Ok isomer_name.

(** The loop of [nuclear_data_from_name]: the index of the first numeric
    character, counted from [i]; [None] when the loop ends without
    assigning [n_char_symbol]. *)
Fixpoint first_numeric (i : nat) (s : string) : option nat :=
  match s with
  | EmptyString => None
  | String c r => if Py.isnumeric c then Some i else first_numeric (S i) r
  end.

(** [try: int(parts[1]) except IndexError: 0]. *)
Definition energy_state_of (parts : list string) : result Z :=
  match nth_error parts 1 with
  | Some s => Py.int s
  | None => Ok 0
  end.

Definition nuclear_data_from_name (isomer_name : string) : result (Z * Z * Z) :=
  match first_numeric 0 isomer_name with
  | None => Raise (UnboundLocalError "n_char_symbol")
  | Some n_char_symbol =>
      let symbol := Py.take n_char_symbol isomer_name in
      atomic_number <- lookup_number symbol ;;
      let mass_and_group := Py.split "m" (Py.drop n_char_symbol isomer_name) in
      m0 <- Py.index mass_and_group 0 ;;
      atomic_mass <- Py.int m0 ;;
      energy_state <- energy_state_of mass_and_group ;;
      Ok (atomic_number, atomic_mass, energy_state)
  end.

Definition filename_from_isomer_name (isomer_name : string) : result string :=
  '(a, m, e) <- nuclear_data_from_name isomer_name ;;
  filename_from_nuclear_data a m e.

Definition nuclear_data_from_filename (filename : string) : result (Z * Z * Z) :=
  atomic_number <- Py.int (Py.slice 4 7 filename) ;;
  seg <- Py.index (Py.split "_" filename) 2 ;;
  mass_and_group <- Py.index (Py.split "." seg) 0 ;;
  m0 <- Py.index (Py.split "m" mass_and_group) 0 ;;
  atomic_mass <- Py.int m0 ;;
  energy_state <- energy_state_of (Py.split "m" mass_and_group) ;;
  Ok (atomic_number, atomic_mass, energy_state).

Definition isomer_name_from_filename (filename : string) : result string :=
  '(a, m, e) <- nuclear_data_from_filename filename ;;
  isomer_name_from_nuclear_data a m e.

End Codec.

(* ================================================================== *)
(** ** Float arithmetic *)

(** The float operations the constructor uses.  [None] from [float_of_str]
    is the ValueError of [float(s)]; [None] from [ln2_div] is the
    ZeroDivisionError of [math.log(2) / x]. *)
Class PyFloat : Type := {
  float : Type;
  float_zero : float;
  float_of_Z : Z -> float;
  float_of_str : string -> option float;
  ln2_div : float -> option float;
  fmul : float -> float -> float;
  fdiv : float -> float -> float
}.

(* ================================================================== *)
(** ** The isomer record and its constructor *)

(** The cases of the two [match] statements of the constructor. *)
Definition half_life_units : list string :=
  ["PS"; "NS"; "US"; "MS"; "S"; "M"; "H"; "D"; "Y"].


Section Loader.

Context {E : ElementInfo} {F : PyFloat}.

(** The file system: the lines [readlines()] returns for a path, each with
    its line end; [None] when [open] fails. *)
Variable fs : string -> option (list string).

Record IsomerData : Type := mkIsomerData {
  isomer_name : string;
  atomic_number : Z;
  atomic_mass : Z;
  energy_state : Z;
  stable : bool;
  decay_rate : float;
  decay_atomic_number_change : Z;
  decay_atomic_mass_change : Z
}.

Definition open_readlines (filepath : string) : result (list string) :=
  match fs filepath with
  | Some lines => Ok lines
  | None => Raise (FileError filepath)
  end.

(** [os.path.join(prefix, filename)], or [filename] on the TypeError of a
    [None] prefix. *)
Definition resolve_path (data_directory_prefix : option string) (filename : string)
  : string :=
  match data_directory_prefix with
  | Some d => Py.os_path_join d filename
  | None => filename
  end.

(** The first loop: the first line with [line[:16] == "Parent half-life"]
    gives [line.split(" ")[2]] and [line.split(" ")[3]]. *)
Fixpoint find_half_life (lines : list string) : result (string * string) :=
  match lines with
  | [] => Raise (ValueError "No decay rate in this file")
  | line :: rest =>
      if String.eqb (Py.slice 0 16 line) "Parent half-life" then
        decay_rate_word <- Py.index (Py.split " " line) 2 ;;
        decay_rate_unit <- Py.index (Py.split " " line) 3 ;;
        Ok (decay_rate_word, decay_rate_unit)
      else find_half_life rest
  end.

(** The second loop: the first line with [line[:10] == "Decay Mode"] gives
    [line.split()[2]]. *)
Fixpoint find_decay_mode (lines : list string) : result string :=
  match lines with
  | [] => Raise (ValueError "No decay mode in this file")
  | line :: rest =>
      if String.eqb (Py.slice 0 10 line) "Decay Mode" then
        Py.index (Py.split_ws line) 2
      else find_decay_mode rest
  end.

(** [math.log(2) / float(decay_rate_word)]. *)
Definition half_life_rate (decay_rate_word : string) : result float :=
  match float_of_str decay_rate_word with
  | None => Raise (FloatValueError decay_rate_word)
  | Some x =>
      match ln2_div x with
      | None => Raise ZeroDivisionError
      | Some r => Ok r
      end
  end.

(** The [match decay_rate_unit] statement. *)
Definition scale_by_unit (rate : float) (decay_rate_unit : string) : result float :=
  if String.eqb decay_rate_unit "PS" then Ok (fmul rate (float_of_Z (10 ^ 12)))
  else if String.eqb decay_rate_unit "NS" then Ok (fmul rate (float_of_Z (10 ^ 9)))
  else if String.eqb decay_rate_unit "US" then Ok (fmul rate (float_of_Z (10 ^ 6)))
  else if String.eqb decay_rate_unit "MS" then Ok (fmul rate (float_of_Z (10 ^ 3)))
  else if String.eqb decay_rate_unit "S" then Ok rate
  else if String.eqb decay_rate_unit "M" then Ok (fdiv rate (float_of_Z 60))
  else if String.eqb decay_rate_unit "H" then Ok (fdiv rate (float_of_Z 3600))
  else if String.eqb decay_rate_unit "D" then Ok (fdiv rate (float_of_Z 86400))
  else if String.eqb decay_rate_unit "Y" then Ok (fdiv rate (float_of_Z 31536000))
  else Raise (ValueError ("Unknown Half-Life Unit '" ++ decay_rate_unit ++ "'")).

(** The [match decay_mode] statement: the changes of atomic number and of
    atomic mass. *)
Definition decay_changes (decay_mode : string) : result (Z * Z) :=
  if String.eqb decay_mode "A" then Ok (-2, -4)
  else if String.eqb decay_mode "B-" then Ok (1, 0)
  else if String.eqb decay_mode "EC" then Ok (-1, 0)
  else Raise (ValueError ("Unknown decay mode '" ++ decay_mode ++ "'")).

(** [IsomerData.__init__]. *)
Definition IsomerData_init (name : string) (data_directory_prefix : option string)
  : result IsomerData :=
  '(a, m, e) <- nuclear_data_from_name name ;;
  filename <- filename_from_isomer_name name ;;
  let filepath := resolve_path data_directory_prefix filename in
  lines <- open_readlines filepath ;;
  '(decay_rate_word, decay_rate_unit) <- find_half_life lines ;;
  if String.eqb decay_rate_word "STABLE" then
    Ok (mkIsomerData name a m e true float_zero 0 0)
  else
    rate <- half_life_rate decay_rate_word ;;
    rate <- scale_by_unit rate decay_rate_unit ;;
    decay_mode <- find_decay_mode lines ;;
    '(dz, dm) <- decay_changes decay_mode ;;
    Ok (mkIsomerData name a m e false rate dz dm).

(** The [daughter_name] property. *)
Definition daughter_name (self : IsomerData) : result string :=
  let daughter_atomic_number := atomic_number self + decay_atomic_number_change self in
  let daughter_atomic_mass := atomic_mass self + decay_atomic_mass_change self in
  let daughter_energy_state := 0 in
  isomer_name_from_nuclear_data daughter_atomic_number daughter_atomic_mass
                                daughter_energy_state.

(** [IsomerData.instance_from_filename]. *)
Definition instance_from_filename (filename : string) (directory_prefix : option string)
  : result IsomerData :=
  name <- isomer_name_from_filename filename ;;
  IsomerData_init name directory_prefix.

End Loader.

Arguments IsomerData {F}.
Arguments mkIsomerData {F}.

(* ================================================================== *)
(** ** Concrete collaborators, for running the model *)

(** Modelled from the spec: [element_info.py] is not among the sources; the
    specification describes it as the fixed periodic table, a two-way map
    between atomic numbers and element symbols. *)
Definition periodic_table : list (Z * string) :=
  [ (1, "H"); (2, "He"); (3, "Li"); (4, "Be"); (5, "B"); (6, "C"); (7, "N");
    (8, "O"); (9, "F"); (10, "Ne"); (11, "Na"); (12, "Mg"); (13, "Al");
    (14, "Si"); (15, "P"); (16, "S"); (17, "Cl"); (18, "Ar"); (19, "K");
    (20, "Ca"); (21, "Sc"); (22, "Ti"); (23, "V"); (24, "Cr"); (25, "Mn");
    (26, "Fe"); (27, "Co"); (28, "Ni"); (29, "Cu"); (30, "Zn"); (31, "Ga");
    (32, "Ge"); (33, "As"); (34, "Se"); (35, "Br"); (36, "Kr"); (37, "Rb");
    (38, "Sr"); (39, "Y"); (40, "Zr"); (41, "Nb"); (42, "Mo"); (43, "Tc");
    (44, "Ru"); (45, "Rh"); (46, "Pd"); (47, "Ag"); (48, "Cd"); (49, "In");
    (50, "Sn"); (51, "Sb"); (52, "Te"); (53, "I"); (54, "Xe"); (55, "Cs");
    (56, "Ba"); (57, "La"); (58, "Ce"); (59, "Pr"); (60, "Nd"); (61, "Pm");
    (62, "Sm"); (63, "Eu"); (64, "Gd"); (65, "Tb"); (66, "Dy"); (67, "Ho");
    (68, "Er"); (69, "Tm"); (70, "Yb"); (71, "Lu"); (72, "Hf"); (73, "Ta");
    (74, "W"); (75, "Re"); (76, "Os"); (77, "Ir"); (78, "Pt"); (79, "Au");
    (80, "Hg"); (81, "Tl"); (82, "Pb"); (83, "Bi"); (84, "Po"); (85, "At");
    (86, "Rn"); (87, "Fr"); (88, "Ra"); (89, "Ac"); (90, "Th"); (91, "Pa");
    (92, "U"); (93, "Np"); (94, "Pu"); (95, "Am"); (96, "Cm"); (97, "Bk");
    (98, "Cf"); (99, "Es"); (100, "Fm"); (101, "Md"); (102, "No");
    (103, "Lr"); (104, "Rf"); (105, "Db"); (106, "Sg"); (107, "Bh");
    (108, "Hs"); (109, "Mt"); (110, "Ds"); (111, "Rg"); (112, "Cn");
    (113, "Nh"); (114, "Fl"); (115, "Mc"); (116, "Lv"); (117, "Ts");
    (118, "Og") ].

Fixpoint symbol_in (t : list (Z * string)) (a : Z) : option string :=
  match t with
  | [] => None
  | (n, s) :: r => if n =? a then Some s else symbol_in r a
  end.

Fixpoint number_in (t : list (Z * string)) (s : string) : option Z :=
  match t with
  | [] => None
  | (n, x) :: r => if String.eqb x s then Some n else number_in r s
  end.

(** What one row of a table has to satisfy for the laws of the element
    table to hold. *)
Definition row_ok (t : list (Z * string)) (row : Z * string) : bool :=
  let '(a, s) := row in
  match number_in t s with
  | Some a' => a' =? a
  | None => false
  end
  && no_numeric s && no_char "_" s.

#[export] Instance periodic : ElementInfo := {|
  get_element_symbol_from_atomic_number := symbol_in periodic_table;
  get_atomic_number_from_element_symbol := number_in periodic_table
|}.

(** A float interface that keeps every value as the expression that
    computes it, for running the constructor on example files.  It reads
    plain decimal literals ([digits] or [digits.digits]) and nothing else of
    what [float()] accepts; the theorems below do not depend on it. *)
Inductive fexpr : Type :=
| FZero                              (* 0.0 *)
| FInt (z : Z)                       (* a literal with an integer value *)
| FDec (mantissa : Z) (places : nat) (* mantissa / 10^places *)
| FLn2Over (x : fexpr)               (* math.log(2) / x *)
| FMul (x y : fexpr)
| FDiv (x y : fexpr).

Fixpoint dec_digits (seen_dot : bool) (m : Z) (places : nat) (any : bool)
                    (s : string) : option (Z * nat) :=
  match s with
  | EmptyString => if any then Some (m, places) else None
  | String c r =>
      if Py.is_digit c then
        dec_digits seen_dot (10 * m + Py.digit_val c)
                   (if seen_dot then S places else places) true r
      else if Ascii.eqb c "." && negb seen_dot then dec_digits true m places any r
      else None
  end.

Definition fexpr_of_str (s : string) : option fexpr :=
  match dec_digits false 0 0 false s with
  | Some (m, p) => Some (FDec m p)
  | None => None
  end.

Definition fexpr_ln2_div (x : fexpr) : option fexpr :=
  match x with
  | FZero | FInt 0 | FDec 0 _ => None
  | _ => Some (FLn2Over x)
  end.

#[export] Instance symbolic_float : PyFloat := {|
  float := fexpr;
  float_zero := FZero;
  float_of_Z := FInt;
  float_of_str := fexpr_of_str;
  ln2_div := fexpr_ln2_div;
  fmul := FMul;
  fdiv := FDiv
|}.

(** [readlines()] on a file content, in text mode: each line keeps its
    line end, and the line ends CR LF and CR are read as LF. *)
Fixpoint readlines_aux (cur : string) (s : string) : list string :=
  match s with
  | EmptyString =>
      match cur with
      | EmptyString => []
      | _ => [cur]
      end
  | String c r =>
      if Ascii.eqb c "010" then
        (cur ++ String "010" EmptyString) :: readlines_aux EmptyString r
      else if Ascii.eqb c "013" then
        (cur ++ String "010" EmptyString)
          :: match r with
             | String "010" r' => readlines_aux EmptyString r'
             | _ => readlines_aux EmptyString r
             end
      else readlines_aux (cur ++ String c EmptyString) r
  end.

Definition readlines (content : string) : list string :=
  readlines_aux EmptyString content.

(** A file system holding one file. *)
Definition one_file (path content : string) : string -> option (list string) :=
  fun p => if String.eqb p path then Some (readlines content) else None.

Definition nl : string := String "010" EmptyString.

(** An element table with a single entry, for running the codec on an
    atomic number the periodic table does not have. *)
Definition single_element (a : Z) (symbol : string) : ElementInfo := {|
  get_element_symbol_from_atomic_number :=
    fun n => if n =? a then Some symbol else None;
  get_atomic_number_from_element_symbol :=
    fun s => if String.eqb s symbol then Some a else None
|}.

(** What may follow the mass field of a file name: nothing, a dot or an
    underscore. *)
Definition ends_field (tail : string) : Prop :=
  match tail with
  | EmptyString => True
  | String c _ => c = "."%char \/ c = "_"%char
  end.

(** [line] is the first of [lines] that starts with [marker]: the line
    at which a scan of the constructor stops. *)
Definition first_line_with (marker : string) (lines : list string)
    (line : string) : Prop :=
  exists pre post,
    lines = (pre ++ line :: post)%list /\
    (forall l, In l pre -> Py.slice 0 (String.length marker) l <> marker) /\
    Py.slice 0 (String.length marker) line = marker.

(** The number of occurrences of a character: [s.count(x)]. *)
Fixpoint count_char (x : ascii) (s : string) : nat :=
  match s with
  | EmptyString => O
  | String c r => if Ascii.eqb c x then S (count_char x r) else count_char x r
  end.

(* ================================================================== *)
(** ** Facts about the built-ins *)

Module PyFacts.
Import Py.

Lemma all_chars_app p s t :
  all_chars p (s ++ t) = all_chars p s && all_chars p t.
Proof.
  induction s as [|c s IH]; simpl; [reflexivity|].
  now rewrite IH, andb_assoc.
Qed.

Lemma all_chars_impl (p q : ascii -> bool) s :
  (forall c, p c = true -> q c = true) ->
  all_chars p s = true -> all_chars q s = true.
Proof.
  intros Hpq; induction s as [|c s IH]; simpl; [reflexivity|].
  intros H; apply andb_true_iff in H as [Hc Hs].
  now rewrite (Hpq _ Hc), (IH Hs).
Qed.

Lemma append_assoc (s t u : string) : (s ++ t) ++ u = s ++ t ++ u.
Proof. induction s as [|c s IH]; simpl; [reflexivity | now rewrite IH]. Qed.

Lemma length_app (s t : string) :
  String.length (s ++ t) = (String.length s + String.length t)%nat.
Proof. induction s as [|c s IH]; simpl; [reflexivity | now rewrite IH]. Qed.

Lemma take_app s t : take (String.length s) (s ++ t) = s.
Proof. induction s as [|c s IH]; simpl; [now destruct t | now rewrite IH]. Qed.

Lemma drop_app s t : drop (String.length s) (s ++ t) = t.
Proof. induction s as [|c s IH]; simpl; [reflexivity | exact IH]. Qed.

(** *** Digits are none of the other characters the codec looks for *)

Lemma digit_not (x c : ascii) :
  is_digit x = false -> is_digit c = true -> negb (Ascii.eqb c x) = true.
Proof.
  intros Hx Hc. destruct (Ascii.eqb_spec c x) as [->|]; [congruence | reflexivity].
Qed.

Lemma digit_numeric c : is_digit c = true -> isnumeric c = true.
Proof. unfold isnumeric; intros ->; reflexivity. Qed.

Lemma digit_not_space c : is_digit c = true -> isspace c = false.
Proof.
  unfold is_digit, isspace; intros H.
  apply andb_true_iff in H as [H1 H2].
  apply Nat.leb_le in H1; apply Nat.leb_le in H2.
  repeat (apply orb_false_iff; split);
    try apply andb_false_iff; try apply Nat.eqb_neq; try lia.
  - right; apply Nat.leb_gt; lia.
  - right; apply Nat.leb_gt; lia.
Qed.

(** What [int] strips is whitespace. *)
Lemma int_space_isspace c : int_space c = true -> isspace c = true.
Proof.
  unfold int_space, isspace. intros H.
  apply orb_true_iff in H as [H|H]; [|now rewrite H, orb_true_r].
  apply orb_true_iff in H as [H|H]; [|now rewrite H, orb_true_r].
  apply orb_true_iff in H as [H|H]; [now rewrite H|].
  apply Nat.eqb_eq in H. rewrite H. reflexivity.
Qed.

Lemma not_space_not_int_space c : isspace c = false -> int_space c = false.
Proof.
  intros H. destruct (int_space c) eqn:Hc; [|reflexivity].
  apply int_space_isspace in Hc. congruence.
Qed.

Lemma digit_not_int_space c : is_digit c = true -> int_space c = false.
Proof. intros H. now apply not_space_not_int_space, digit_not_space. Qed.

Lemma digits_no_char x s :
  is_digit x = false -> all_chars is_digit s = true -> all_chars (fun c => negb (Ascii.eqb c x)) s = true.
Proof. intros Hx; apply all_chars_impl; intros c; now apply digit_not. Qed.

(** *** [split] *)

Lemma split_not_nil sep s : split sep s <> [].
Proof.
  destruct s as [|c s]; simpl; [discriminate|].
  destruct (Ascii.eqb c sep); [discriminate|].
  destruct (split sep s); discriminate.
Qed.

Lemma split_none sep s :
  all_chars (fun c => negb (Ascii.eqb c sep)) s = true -> split sep s = [s].
Proof.
  induction s as [|c s IH]; simpl; [reflexivity|].
  intros H; apply andb_true_iff in H as [Hc Hs].
  apply negb_true_iff in Hc; rewrite Hc, (IH Hs); reflexivity.
Qed.

Lemma split_app sep s t :
  all_chars (fun c => negb (Ascii.eqb c sep)) s = true ->
  split sep (s ++ String sep t) = s :: split sep t.
Proof.
  induction s as [|c s IH]; simpl.
  - intros _; now rewrite Ascii.eqb_refl.
  - intros H; apply andb_true_iff in H as [Hc Hs].
    apply negb_true_iff in Hc; rewrite Hc, (IH Hs); reflexivity.
Qed.

(** The first piece of a split is a prefix of the string. *)
Lemma split_head_prefix sep s p ps :
  split sep s = p :: ps -> exists t, s = p ++ t.
Proof.
  revert p ps; induction s as [|c s IH]; simpl; intros p ps H.
  - injection H as <- _; now exists EmptyString.
  - destruct (Ascii.eqb c sep).
    + injection H as <- _; now exists (String c s).
    + destruct (split sep s) as [|q qs] eqn:Hs.
      * injection H as <- _. now destruct (split_not_nil sep s).
      * injection H as <- _. destruct (IH q qs eq_refl) as [t ->].
        now exists t.
Qed.

(** *** [strip] *)

Lemma lstrip_first c r : int_space c = false -> lstrip (String c r) = String c r.
Proof. simpl; now intros ->. Qed.

Lemma rstrip_no_space s :
  all_chars (fun c => negb (int_space c)) s = true -> rstrip s = s.
Proof.
  induction s as [|c s IH]; simpl; [reflexivity|].
  intros H; apply andb_true_iff in H as [Hc Hs].
  apply negb_true_iff in Hc; rewrite (IH Hs), Hc.
  now destruct s.
Qed.

Lemma strip_digits s : all_chars is_digit s = true -> strip s = s.
Proof.
  intros H. unfold strip.
  assert (Hs : all_chars (fun c => negb (int_space c)) s = true).
  { revert H; apply all_chars_impl; intros c Hc; now rewrite digit_not_int_space. }
  destruct s as [|c r]; [reflexivity|].
  simpl in H; apply andb_true_iff in H as [Hc _].
  rewrite lstrip_first by now apply digit_not_int_space.
  now apply rstrip_no_space.
Qed.

End PyFacts.

(* ================================================================== *)
(** ** [str] and [int] on non-negative integers *)

Module Decimal.
Import Py PyFacts.

Lemma digit_cases d : 0 <= d < 10 ->
  d = 0 \/ d = 1 \/ d = 2 \/ d = 3 \/ d = 4 \/ d = 5 \/ d = 6 \/ d = 7 \/ d = 8 \/ d = 9.
Proof. lia. Qed.

Lemma digit_char_is_digit d : 0 <= d < 10 -> is_digit (digit_char d) = true.
Proof.
  intros H; destruct (digit_cases d H) as [->|[->|[->|[->|[->|[->|[->|[->|[->| ->]]]]]]]]];
    reflexivity.
Qed.

Lemma digit_val_char d : 0 <= d < 10 -> digit_val (digit_char d) = d.
Proof.
  intros H; destruct (digit_cases d H) as [->|[->|[->|[->|[->|[->|[->|[->|[->| ->]]]]]]]]];
    reflexivity.
Qed.

Lemma mod10_range n : 0 <= n mod 10 < 10.
Proof. apply Z.mod_pos_bound; lia. Qed.

Lemma str_of_nonneg_digits fuel : forall n acc,
  all_chars is_digit acc = true ->
  all_chars is_digit (str_of_nonneg fuel n acc) = true.
Proof.
  induction fuel as [|f IH]; intros n acc Hacc; cbn [str_of_nonneg]; [exact Hacc|].
  assert (Hd : all_chars is_digit (String (digit_char (n mod 10)) acc) = true).
  { cbn [all_chars]; now rewrite digit_char_is_digit, Hacc by apply mod10_range. }
  destruct (n <? 10); [exact Hd | now apply IH].
Qed.

(** With fuel to spare, the printed digits start with a digit. *)
Lemma str_of_nonneg_cons fuel : forall n acc,
  exists c r, str_of_nonneg (S fuel) n acc = String c r /\ is_digit c = true.
Proof.
  induction fuel as [|f IH]; intros n acc.
  - cbn [str_of_nonneg]. exists (digit_char (n mod 10)), acc.
    split; [now destruct (n <? 10) | apply digit_char_is_digit, mod10_range].
  - change (str_of_nonneg (S (S f)) n acc)
      with (if n <? 10 then String (digit_char (n mod 10)) acc
            else str_of_nonneg (S f) (n / 10) (String (digit_char (n mod 10)) acc)).
    destruct (n <? 10).
    + exists (digit_char (n mod 10)), acc.
      split; [reflexivity | apply digit_char_is_digit, mod10_range].
    + apply IH.
Qed.

(** Reading back what was printed: the accumulated value is [n]. *)
Lemma int_digits_str_of_nonneg fuel : forall n acc b,
  0 <= n < 2 ^ Z.of_nat (S fuel) ->
  int_digits b 0 (str_of_nonneg (S fuel) n acc) = int_digits true n acc.
Proof.
  induction fuel as [|f IH]; intros n acc b Hn.
  - change (2 ^ Z.of_nat 1) with 2 in Hn.
    assert (Hlt : (n <? 10) = true) by (apply Z.ltb_lt; lia).
    cbn [str_of_nonneg]. rewrite Hlt. cbn [int_digits].
    rewrite digit_char_is_digit, digit_val_char by apply mod10_range.
    rewrite Z.mod_small by lia. f_equal; lia.
  - change (str_of_nonneg (S (S f)) n acc)
      with (if n <? 10 then String (digit_char (n mod 10)) acc
            else str_of_nonneg (S f) (n / 10) (String (digit_char (n mod 10)) acc)).
    destruct (Z.ltb_spec n 10) as [Hlt|Hge].
    + cbn [int_digits]. rewrite digit_char_is_digit, digit_val_char by apply mod10_range.
      rewrite Z.mod_small by lia. f_equal; lia.
    + rewrite IH.
      * cbn [int_digits]. rewrite digit_char_is_digit, digit_val_char by apply mod10_range.
        f_equal. pose proof (Z.div_mod n 10); lia.
      * rewrite Nat2Z.inj_succ, Z.pow_succ_r in Hn by lia.
        split; [apply Z.div_pos; lia|].
        apply Z.div_lt_upper_bound; lia.
Qed.

Lemma digits_fuel_enough n : 0 <= n -> n < 2 ^ Z.of_nat (digits_fuel n).
Proof.
  intros Hn. unfold digits_fuel.
  rewrite Nat2Z.inj_succ, Z2Nat.id by apply Z.log2_nonneg.
  destruct (Z.eq_dec n 0) as [->|Hnz]; [reflexivity|].
  apply Z.log2_spec; lia.
Qed.

(** The number of digits. *)
Lemma str_of_nonneg_length fuel : forall n acc k,
  (1 <= k)%nat -> 0 <= n < 10 ^ Z.of_nat k ->
  (String.length (str_of_nonneg fuel n acc) <= k + String.length acc)%nat.
Proof.
  induction fuel as [|f IH]; intros n acc k Hk Hn; cbn [str_of_nonneg]; [lia|].
  destruct (Z.ltb_spec n 10) as [Hlt|Hge]; [cbn [String.length]; lia|].
  destruct k as [|k]; [lia|].
  rewrite Nat2Z.inj_succ, Z.pow_succ_r in Hn by lia.
  destruct k as [|k]; [change (10 ^ Z.of_nat 0) with 1 in Hn; lia|].
  specialize (IH (n / 10) (String (digit_char (n mod 10)) acc) (S k)).
  cbn [String.length] in IH.
  assert (0 <= n / 10 < 10 ^ Z.of_nat (S k)).
  { split; [apply Z.div_pos; lia | apply Z.div_lt_upper_bound; lia]. }
  specialize (IH ltac:(lia) ltac:(assumption)). lia.
Qed.

Section NonNegative.

Variable n : Z.
Hypothesis n_nonneg : 0 <= n.

Lemma str_nonneg : str n = str_of_nonneg (digits_fuel n) n EmptyString.
Proof.
  unfold str. destruct (Z.ltb_spec n 0); [lia | reflexivity].
Qed.

Lemma str_digits : all_chars is_digit (str n) = true.
Proof. rewrite str_nonneg. now apply str_of_nonneg_digits. Qed.

Lemma str_cons : exists c r, str n = String c r /\ is_digit c = true.
Proof. rewrite str_nonneg. apply str_of_nonneg_cons. Qed.

Lemma str_length k :
  (1 <= k)%nat -> n < 10 ^ Z.of_nat k -> (String.length (str n) <= k)%nat.
Proof.
  intros Hk Hn. rewrite str_nonneg.
  pose proof (str_of_nonneg_length (digits_fuel n) n EmptyString k Hk (conj n_nonneg Hn)) as H.
  cbn [String.length] in H; lia.
Qed.

(** A string of digits that starts with a digit is read without sign. *)
Lemma int_signed_digits c r :
  is_digit c = true -> int_signed (String c r) = int_digits false 0 (String c r).
Proof.
  intros Hc. unfold int_signed.
  destruct (Ascii.eqb_spec c "-") as [->|_]; [discriminate|].
  destruct (Ascii.eqb_spec c "+") as [->|_]; [discriminate|].
  reflexivity.
Qed.

Lemma int_str : int (str n) = Ok n.
Proof.
  unfold int. rewrite strip_digits by apply str_digits.
  destruct str_cons as (c & r & Hs & Hc).
  rewrite Hs, int_signed_digits, <- Hs by exact Hc.
  rewrite str_nonneg. unfold digits_fuel.
  rewrite int_digits_str_of_nonneg; [reflexivity|].
  split; [exact n_nonneg | now apply digits_fuel_enough].
Qed.

(** [zfill] only adds zeros, which [int] ignores. *)
Lemma zfill_str w : zfill w (str n) = zeros (w - String.length (str n)) (str n).
Proof.
  destruct str_cons as (c & r & Hs & Hc). rewrite Hs. unfold zfill.
  destruct (Ascii.eqb_spec c "+") as [->|_]; [discriminate|].
  destruct (Ascii.eqb_spec c "-") as [->|_]; [discriminate|].
  reflexivity.
Qed.

Lemma zeros_digits k s :
  all_chars is_digit s = true -> all_chars is_digit (zeros k s) = true.
Proof. intros H; induction k as [|k IH]; cbn [zeros all_chars]; [exact H | exact IH]. Qed.

Lemma zeros_length k s : String.length (zeros k s) = (k + String.length s)%nat.
Proof. induction k as [|k IH]; simpl; [reflexivity | now rewrite IH]. Qed.

Lemma int_digits_zeros k c r b :
  is_digit c = true ->
  int_digits b 0 (zeros k (String c r)) = int_digits false 0 (String c r).
Proof.
  intros Hc; revert b; induction k as [|k IH]; intros b.
  - cbn [zeros int_digits]. now rewrite Hc.
  - cbn [zeros]. change (int_digits b 0 (String "0" (zeros k (String c r))))
      with (int_digits true 0 (zeros k (String c r))).
    apply IH.
Qed.

Lemma zfill_digits w : all_chars is_digit (zfill w (str n)) = true.
Proof. rewrite zfill_str. apply zeros_digits, str_digits. Qed.

Lemma zeros_cons k c r :
  is_digit c = true ->
  exists c' r', zeros k (String c r) = String c' r' /\ is_digit c' = true.
Proof.
  intros Hc; destruct k as [|k]; simpl.
  - now exists c, r.
  - now exists "0"%char, (zeros k (String c r)).
Qed.

Lemma int_zfill w : int (zfill w (str n)) = Ok n.
Proof.
  unfold int. rewrite strip_digits by apply zfill_digits.
  rewrite zfill_str.
  destruct str_cons as (c & r & Hs & Hc). rewrite Hs.
  destruct (zeros_cons (w - String.length (String c r)) c r Hc) as (c' & r' & Hz & Hc').
  rewrite Hz, int_signed_digits, <- Hz by exact Hc'.
  rewrite int_digits_zeros by exact Hc.
  rewrite <- int_signed_digits, <- Hs by exact Hc.
  pose proof int_str as Hi. unfold int in Hi.
  rewrite strip_digits in Hi by apply str_digits.
  destruct (int_signed (str n)); [now injection Hi as -> | discriminate].
Qed.

Lemma zfill3_length : n < 1000 -> String.length (zfill 3 (str n)) = 3%nat.
Proof.
  intros Hn. rewrite zfill_str, zeros_length.
  pose proof (str_length 3 ltac:(lia) Hn). lia.
Qed.

End NonNegative.

End Decimal.

(* ================================================================== *)
(** ** The periodic table satisfies the laws of the element table *)

Module Table.

Lemma symbol_in_In t a s : symbol_in t a = Some s -> In (a, s) t.
Proof.
  induction t as [|[n x] t IH]; simpl; [discriminate|].
  destruct (Z.eqb_spec n a) as [->|_].
  - intros H; injection H as ->; now left.
  - intros H; right; now apply IH.
Qed.

Lemma rows_ok : forallb (row_ok periodic_table) periodic_table = true.
Proof. vm_compute. reflexivity. Qed.

Lemma row_of a s :
  symbol_in periodic_table a = Some s -> row_ok periodic_table (a, s) = true.
Proof.
  intros H. apply symbol_in_In in H.
  exact (proj1 (forallb_forall _ _) rows_ok _ H).
Qed.

#[global] Instance periodic_laws : ElementInfoLaws periodic.
Proof.
  split; intros a s H; apply row_of in H; unfold row_ok in H;
    apply andb_true_iff in H as [H H3]; apply andb_true_iff in H as [H1 H2].
  - change (number_in periodic_table s = Some a).
    destruct (number_in periodic_table s) as [a'|]; [|discriminate].
    apply Z.eqb_eq in H1; now subst.
  - exact H2.
  - exact H3.
Qed.

End Table.

(* ================================================================== *)
(** ** The codec: decoding what was encoded *)

Section CodecFacts.
Import Py PyFacts Decimal.

Context {E : ElementInfo}.

Lemma append_nil_r (s : string) : s ++ EmptyString = s.
Proof. induction s as [|c s IH]; simpl; [reflexivity | now rewrite IH]. Qed.

Lemma first_numeric_app s c r i :
  no_numeric s = true -> isnumeric c = true ->
  first_numeric i (s ++ String c r) = Some (i + String.length s)%nat.
Proof.
  revert i; induction s as [|x s IH]; intros i Hs Hc.
  - cbn [append first_numeric]. rewrite Hc. f_equal; simpl; lia.
  - cbn [no_numeric all_chars] in Hs. apply andb_true_iff in Hs as [Hx Hs].
    apply negb_true_iff in Hx.
    cbn [append first_numeric String.length]. rewrite Hx, IH by assumption.
    f_equal; lia.
Qed.

Lemma first_numeric_none s i : no_numeric s = true -> first_numeric i s = None.
Proof.
  revert i; induction s as [|x s IH]; intros i Hs; [reflexivity|].
  cbn [no_numeric all_chars] in Hs. apply andb_true_iff in Hs as [Hx Hs].
  apply negb_true_iff in Hx. cbn [first_numeric]. rewrite Hx. now apply IH.
Qed.

(** A name made of a known symbol and a tail that starts with a numeric
    character is decoded from the pieces of the tail. *)
Lemma nuclear_data_from_name_tail sym a c r :
  no_numeric sym = true -> isnumeric c = true ->
  get_atomic_number_from_element_symbol sym = Some a ->
  nuclear_data_from_name (sym ++ String c r) =
    (m0 <- index (split "m" (String c r)) 0 ;;
     atomic_mass <- int m0 ;;
     energy_state <- energy_state_of (split "m" (String c r)) ;;
     Ok (a, atomic_mass, energy_state)).
Proof.
  intros Hs Hc Ha. unfold nuclear_data_from_name.
  rewrite first_numeric_app by assumption.
  cbn [Nat.add]. rewrite take_app, drop_app.
  unfold lookup_number. rewrite Ha. reflexivity.
Qed.

(** The pieces of [digits ++ suffix]. *)
Lemma split_mass_suffix d e :
  all_chars is_digit d = true -> 0 <= e ->
  split "m" (d ++ energy_suffix e) = if e =? 0 then [d] else [d; str e].
Proof.
  intros Hd He. unfold energy_suffix.
  assert (Hm : forall s, all_chars is_digit s = true ->
                         all_chars (fun c => negb (Ascii.eqb c "m")) s = true).
  { intros s; now apply digits_no_char. }
  destruct (e =? 0).
  - rewrite append_nil_r. now apply split_none, Hm.
  - cbn [append]. rewrite split_app by now apply Hm.
    rewrite split_none; [reflexivity|]. now apply Hm, str_digits.
Qed.

Lemma energy_state_of_suffix d e :
  0 <= e -> energy_state_of (if e =? 0 then [d] else [d; str e]) = Ok e.
Proof.
  intros He. destruct (Z.eqb_spec e 0) as [->|_]; [reflexivity|].
  cbn [energy_state_of nth_error]. now apply int_str.
Qed.

(** The suffix holds no character other than [m] and digits. *)
Lemma suffix_no_char x e :
  is_digit x = false -> Ascii.eqb "m" x = false -> 0 <= e ->
  no_char x (energy_suffix e) = true.
Proof.
  intros Hx Hm He. unfold energy_suffix, no_char.
  destruct (e =? 0); [reflexivity|].
  cbn [append all_chars]. rewrite Hm. cbn [negb andb].
  now apply digits_no_char, str_digits.
Qed.

(** The round trip through the name, for any non-negative mass. *)
Lemma encode_decode_name {L : ElementInfoLaws E} a m e sym :
  get_element_symbol_from_atomic_number a = Some sym ->
  0 <= m -> 0 <= e ->
  isomer_name_from_nuclear_data a m e = Ok (sym ++ str m ++ energy_suffix e) /\
  nuclear_data_from_name (sym ++ str m ++ energy_suffix e) = Ok (a, m, e).
Proof.
  intros Hsym Hm He. split.
  - unfold isomer_name_from_nuclear_data, lookup_symbol. rewrite Hsym.
    cbn [bind]. now rewrite append_assoc.
  - destruct (str_cons m Hm) as (c & r & Hs & Hc).
    assert (Hd : all_chars is_digit (String c r) = true)
      by (rewrite <- Hs; now apply str_digits).
    rewrite Hs. cbn [append].
    rewrite (nuclear_data_from_name_tail sym a c (r ++ energy_suffix e)).
    + change (String c (r ++ energy_suffix e)) with (String c r ++ energy_suffix e).
      rewrite split_mass_suffix, energy_state_of_suffix by assumption.
      replace (index (if e =? 0 then [String c r] else [String c r; str e]) 0)
        with (Ok (String c r)) by now destruct (e =? 0).
      cbn [bind]. rewrite <- Hs, int_str by assumption. reflexivity.
    + exact (symbol_no_numeric a sym Hsym).
    + now apply digit_numeric.
    + exact (symbol_number a sym Hsym).
Qed.

End CodecFacts.

(** C1.  For every triple with a known element symbol, atomic number and
    atomic mass in the three-digit range and a non-negative energy state,
    decoding the isomer name that [isomer_name_from_nuclear_data] builds
    returns the triple. *)
Theorem name_round_trip {E : ElementInfo} {L : ElementInfoLaws E}
    (atomic_number atomic_mass energy_state : Z) (symbol : string) :
  get_element_symbol_from_atomic_number atomic_number = Some symbol ->
  atomic_number < 1000 -> 0 <= atomic_mass < 1000 -> 0 <= energy_state ->
  (name <- isomer_name_from_nuclear_data atomic_number atomic_mass energy_state ;;
   nuclear_data_from_name name)
  = Ok (atomic_number, atomic_mass, energy_state).
Proof.
  intros Hsym _ [Hm _] He.
  destruct (encode_decode_name atomic_number atomic_mass energy_state symbol
              Hsym Hm He) as [-> Hdec].
  exact Hdec.
Qed.

Lemma name_round_trip_witness :
  (name <- isomer_name_from_nuclear_data (E := periodic) 27 60 1 ;;
   nuclear_data_from_name name) = Ok (27, 60, 1).
Proof.
  apply (name_round_trip (E := periodic) 27 60 1 "Co");
    [reflexivity | lia | lia | lia].
Defined.

Section FilenameFacts.
Import Py PyFacts Decimal.

Context {E : ElementInfo}.

(** The file name as one concatenation. *)
Lemma filename_from_nuclear_data_eq a m e sym :
  get_element_symbol_from_atomic_number a = Some sym ->
  filename_from_nuclear_data a m e =
    Ok ("dec-" ++ zfill 3 (str a) ++ "_" ++ sym ++ "_" ++ zfill 3 (str m)
               ++ energy_suffix e ++ ".endf").
Proof.
  intros Hsym. unfold filename_from_nuclear_data, lookup_symbol.
  rewrite Hsym. cbn [bind]. f_equal.
  repeat (rewrite ?PyFacts.append_assoc; cbn [append]). reflexivity.
Qed.

Lemma no_char_app x s t : no_char x (s ++ t) = no_char x s && no_char x t.
Proof. apply all_chars_app. Qed.

Lemma digits_no_char' x s :
  is_digit x = false -> all_chars is_digit s = true -> no_char x s = true.
Proof. apply digits_no_char. Qed.

(** Decoding a file name whose fields are [za] (three digits), [sym] and
    [zm ++ suffix]. *)
Lemma nuclear_data_from_filename_fields za sym zm e :
  String.length za = 3%nat -> all_chars is_digit za = true ->
  no_char "_" sym = true -> all_chars is_digit zm = true -> 0 <= e ->
  nuclear_data_from_filename
    ("dec-" ++ za ++ "_" ++ sym ++ "_" ++ zm ++ energy_suffix e ++ ".endf")
  = (atomic_number <- int za ;;
     atomic_mass <- int zm ;;
     Ok (atomic_number, atomic_mass, e)).
Proof.
  intros Hlen Hza Hsym Hzm He. unfold nuclear_data_from_filename.
  (* filename[4:7] *)
  assert (Hslice : forall t, slice 4 7 ("dec-" ++ za ++ t) = za).
  { intros t. unfold slice. cbn [Nat.sub append drop].
    rewrite <- Hlen. apply take_app. }
  rewrite Hslice.
  destruct (int za) as [an|ex]; [cbn [bind] | reflexivity].
  (* filename.split("_")[2] *)
  set (rest := zm ++ energy_suffix e ++ ".endf").
  assert (Hsplit : split "_" ("dec-" ++ za ++ "_" ++ sym ++ "_" ++ rest)
                   = ["dec-" ++ za; sym; rest]).
  { change ("dec-" ++ za ++ "_" ++ sym ++ "_" ++ rest)
      with ("dec-" ++ (za ++ String "_" (sym ++ String "_" rest))).
    rewrite <- append_assoc.
    rewrite split_app.
    2:{ rewrite all_chars_app; apply andb_true_iff; split;
        [reflexivity | now apply digits_no_char]. }
    rewrite split_app by exact Hsym.
    rewrite split_none; [reflexivity|].
    subst rest. fold (no_char "_" (zm ++ energy_suffix e ++ ".endf")).
    rewrite !no_char_app, digits_no_char', suffix_no_char by
      (assumption || reflexivity).
    reflexivity. }
  rewrite Hsplit. cbn [index nth_error bind].
  (* .split(".")[0] *)
  assert (Hdot : split "." rest = [zm ++ energy_suffix e; "endf"]).
  { subst rest.
    change (zm ++ energy_suffix e ++ ".endf")
      with (zm ++ energy_suffix e ++ String "." "endf").
    rewrite <- append_assoc, split_app; [reflexivity|].
    fold (no_char "." (zm ++ energy_suffix e)).
    rewrite no_char_app, digits_no_char', suffix_no_char by
      (assumption || reflexivity).
    reflexivity. }
  rewrite Hdot. cbn [index nth_error bind].
  (* .split("m") *)
  rewrite split_mass_suffix, energy_state_of_suffix by assumption.
  replace (index (if e =? 0 then [zm] else [zm; str e]) 0)
    with (Ok zm) by now destruct (e =? 0).
  cbn [bind]. now destruct (int zm).
Qed.

Lemma encode_decode_filename a m e sym :
  no_char "_" sym = true ->
  0 <= a < 1000 -> 0 <= m -> 0 <= e ->
  nuclear_data_from_filename
    ("dec-" ++ zfill 3 (str a) ++ "_" ++ sym ++ "_" ++ zfill 3 (str m)
            ++ energy_suffix e ++ ".endf")
  = Ok (a, m, e).
Proof.
  intros Hsym [Ha Ha'] Hm He.
  rewrite nuclear_data_from_filename_fields;
    try assumption; try now apply zfill_digits.
  - now rewrite !int_zfill.
  - now apply zfill3_length.
Qed.

End FilenameFacts.

(** C2.  For every triple with a known element symbol, atomic number and
    atomic mass in the three-digit range and a non-negative energy state,
    decoding the file name that [filename_from_nuclear_data] builds returns
    the triple. *)
Theorem filename_round_trip {E : ElementInfo} {L : ElementInfoLaws E}
    (atomic_number atomic_mass energy_state : Z) (symbol : string) :
  get_element_symbol_from_atomic_number atomic_number = Some symbol ->
  0 <= atomic_number < 1000 -> 0 <= atomic_mass < 1000 -> 0 <= energy_state ->
  (filename <- filename_from_nuclear_data atomic_number atomic_mass energy_state ;;
   nuclear_data_from_filename filename)
  = Ok (atomic_number, atomic_mass, energy_state).
Proof.
  intros Hsym Ha [Hm _] He.
  rewrite (filename_from_nuclear_data_eq _ _ _ _ Hsym). cbn [bind].
  apply encode_decode_filename; try assumption.
  exact (symbol_no_underscore atomic_number symbol Hsym).
Qed.

Lemma filename_round_trip_witness :
  (filename <- filename_from_nuclear_data (E := periodic) 27 60 1 ;;
   nuclear_data_from_filename filename) = Ok (27, 60, 1).
Proof.
  apply (filename_round_trip (E := periodic) 27 60 1 "Co");
    [reflexivity | lia | lia | lia].
Defined.

(** C3.  Both encoders append [m<energy_state>] exactly when the energy
    state is strictly positive, and nothing when it is 0; with Co as the
    symbol of 27 this gives Co60, Co60m1, dec-027_Co_060.endf and
    dec-027_Co_060m1.endf. *)
Theorem suffix_iff_positive {E : ElementInfo} :
  (forall atomic_number atomic_mass energy_state symbol,
     get_element_symbol_from_atomic_number atomic_number = Some symbol ->
     0 <= energy_state ->
     let suffix :=
       if 0 <? energy_state then "m" ++ Py.str energy_state else EmptyString in
     isomer_name_from_nuclear_data atomic_number atomic_mass energy_state
       = Ok (symbol ++ Py.str atomic_mass ++ suffix) /\
     filename_from_nuclear_data atomic_number atomic_mass energy_state
       = Ok ("dec-" ++ Py.zfill 3 (Py.str atomic_number) ++ "_" ++ symbol ++ "_"
                    ++ Py.zfill 3 (Py.str atomic_mass) ++ suffix ++ ".endf")) /\
  (get_element_symbol_from_atomic_number 27 = Some "Co" ->
     isomer_name_from_nuclear_data 27 60 0 = Ok "Co60" /\
     isomer_name_from_nuclear_data 27 60 1 = Ok "Co60m1" /\
     filename_from_nuclear_data 27 60 0 = Ok "dec-027_Co_060.endf" /\
     filename_from_nuclear_data 27 60 1 = Ok "dec-027_Co_060m1.endf").
Proof.
  split.
  - intros a m e sym Hsym He suffix.
    assert (Hsuf : energy_suffix e = suffix).
    { unfold energy_suffix, suffix.
      destruct (Z.eqb_spec e 0) as [->|Hne]; [reflexivity|].
      destruct (Z.ltb_spec 0 e); [reflexivity | lia]. }
    rewrite <- Hsuf. split.
    + unfold isomer_name_from_nuclear_data, lookup_symbol. rewrite Hsym.
      cbn [bind]. now rewrite PyFacts.append_assoc.
    + now apply filename_from_nuclear_data_eq.
  - intros Hco.
    unfold isomer_name_from_nuclear_data, filename_from_nuclear_data, lookup_symbol.
    rewrite Hco. repeat split; reflexivity.
Qed.

Lemma suffix_iff_positive_witness :
  (isomer_name_from_nuclear_data (E := periodic) 92 235 2 = Ok "U235m2" /\
   filename_from_nuclear_data (E := periodic) 92 235 2 = Ok "dec-092_U_235m2.endf") /\
  isomer_name_from_nuclear_data (E := periodic) 27 60 0 = Ok "Co60" /\
  isomer_name_from_nuclear_data (E := periodic) 27 60 1 = Ok "Co60m1" /\
  filename_from_nuclear_data (E := periodic) 27 60 0 = Ok "dec-027_Co_060.endf" /\
  filename_from_nuclear_data (E := periodic) 27 60 1 = Ok "dec-027_Co_060m1.endf".
Proof.
  split.
  - apply (proj1 (suffix_iff_positive (E := periodic)) 92 235 2 "U");
      [reflexivity | lia].
  - apply (proj2 (suffix_iff_positive (E := periodic))). reflexivity.
Defined.

(** C8.  A name without any numeric character never assigns the split
    position: [nuclear_data_from_name] fails with the unbound-variable
    error, before the element table is asked. *)
Theorem no_numeric_unbound {E : ElementInfo} (isomer_name : string) :
  no_numeric isomer_name = true ->
  nuclear_data_from_name isomer_name = Raise (UnboundLocalError "n_char_symbol") /\
  nuclear_data_from_name isomer_name <> Raise ElementLookupError.
Proof.
  intros H. unfold nuclear_data_from_name.
  rewrite first_numeric_none by exact H. split; [reflexivity | discriminate].
Qed.

Lemma no_numeric_unbound_witness :
  nuclear_data_from_name (E := periodic) "Co" = Raise (UnboundLocalError "n_char_symbol") /\
  nuclear_data_from_name (E := periodic) "Co" <> Raise ElementLookupError.
Proof. apply (no_numeric_unbound (E := periodic) "Co"). reflexivity. Defined.

(** C9, as the code has it.  For a symbol the element table knows,
    followed by a mass that [int] reads and a trailing [m] with nothing
    after it, [nuclear_data_from_name] fails with the conversion error of
    [int] on the empty string; the energy state defaults to 0 only when the
    tail has no [m]: with an [m], it is [int] of the piece that follows. *)
Theorem trailing_m_int_error {E : ElementInfo}
    (symbol : string) (atomic_number : Z) (mass : string) (atomic_mass : Z) :
  no_numeric symbol = true ->
  get_atomic_number_from_element_symbol symbol = Some atomic_number ->
  (exists c r, mass = String c r /\ Py.isnumeric c = true) ->
  no_char "m" mass = true ->
  Py.int mass = Ok atomic_mass ->
  nuclear_data_from_name (symbol ++ mass ++ "m") = Raise (IntValueError EmptyString) /\
  nuclear_data_from_name (symbol ++ mass) = Ok (atomic_number, atomic_mass, 0) /\
  forall rest,
    nuclear_data_from_name (symbol ++ mass ++ "m" ++ rest) =
      (energy_state <- Py.int (hd EmptyString (Py.split "m" rest)) ;;
       Ok (atomic_number, atomic_mass, energy_state)).
Proof.
  intros Hsym Ha (c & r & -> & Hc) Hm Hint.
  assert (Hrest : forall rest,
    nuclear_data_from_name (symbol ++ String c r ++ "m" ++ rest) =
      (energy_state <- Py.int (hd EmptyString (Py.split "m" rest)) ;;
       Ok (atomic_number, atomic_mass, energy_state))).
  { intros rest. cbn [append].
    rewrite (nuclear_data_from_name_tail symbol atomic_number c _ Hsym Hc Ha).
    change (String c (r ++ String "m" rest)) with (String c r ++ String "m" rest).
    rewrite PyFacts.split_app by exact Hm.
    cbn [Py.index nth_error bind energy_state_of]. rewrite Hint. cbn [bind].
    destruct (Py.split "m" rest) as [|p ps] eqn:Hs;
      [now destruct (PyFacts.split_not_nil "m" rest) | reflexivity]. }
  split; [|split].
  - exact (Hrest EmptyString).
  - cbn [append].
    rewrite (nuclear_data_from_name_tail symbol atomic_number c _ Hsym Hc Ha).
    rewrite PyFacts.split_none by exact Hm.
    cbn [Py.index nth_error bind energy_state_of]. rewrite Hint. reflexivity.
  - exact Hrest.
Qed.

Lemma trailing_m_int_error_witness :
  nuclear_data_from_name (E := periodic) "Co60m" = Raise (IntValueError EmptyString) /\
  nuclear_data_from_name (E := periodic) "Co60" = Ok (27, 60, 0).
Proof.
  destruct (trailing_m_int_error (E := periodic) "Co" 27 "60" 60) as (H1 & H2 & _).
  - reflexivity.
  - reflexivity.
  - exists "6"%char, "0". split; reflexivity.
  - reflexivity.
  - reflexivity.
  - split; [exact H1 | exact H2].
Defined.

(** C9 as stated fails outside these names: both tails below end in an
    [m] with no digit after it; the first name has no known symbol and
    raises the lookup error, which comes first, and in the second the piece
    after the first [m] is [1], so the name decodes. *)
Lemma trailing_m_counterexample :
  Py.drop 2 "Xx60m" = "60" ++ "m" /\
  nuclear_data_from_name (E := periodic) "Xx60m" = Raise ElementLookupError /\
  Py.drop 2 "Co60m1m" = "60m1" ++ "m" /\
  nuclear_data_from_name (E := periodic) "Co60m1m" = Ok (27, 60, 1).
Proof. repeat split; reflexivity. Qed.

(* ================================================================== *)
(** ** The symbol field of a file name *)

Section SymbolField.
Import Py PyFacts.

Lemma take_prefix k p t :
  (k <= String.length p)%nat -> take k (p ++ t) = take k p.
Proof.
  revert p; induction k as [|k IH]; intros p Hk; [reflexivity|].
  destruct p as [|c p]; cbn [String.length] in Hk; [lia|].
  cbn [append take]. rewrite IH by lia. reflexivity.
Qed.

Lemma drop_prefix i p t :
  (i <= String.length p)%nat -> drop i (p ++ t) = drop i p ++ t.
Proof.
  revert p; induction i as [|i IH]; intros p Hi; [reflexivity|].
  destruct p as [|c p]; cbn [String.length] in Hi; [lia|].
  cbn [append drop]. apply IH; lia.
Qed.

Lemma drop_length i p : String.length (drop i p) = (String.length p - i)%nat.
Proof.
  revert p; induction i as [|i IH]; intros p; cbn [drop].
  - lia.
  - destruct p as [|c p]; [reflexivity | cbn [String.length]; apply IH].
Qed.

(** A slice that ends inside a prefix only reads the prefix. *)
Lemma slice_prefix i j p t :
  (j <= String.length p)%nat -> slice i j (p ++ t) = slice i j p.
Proof.
  intros Hj. unfold slice.
  destruct (Nat.le_gt_cases i (String.length p)) as [Hi|Hi].
  - rewrite drop_prefix by exact Hi. apply take_prefix.
    rewrite drop_length. lia.
  - replace (j - i)%nat with 0%nat by lia. reflexivity.
Qed.

End SymbolField.

(** C10, as the code has it.  Two file names that differ only in their
    second underscore-delimited piece decode to the same nuclear data,
    provided the first piece covers the positions 4 to 6 the atomic number is
    read from (it has at least seven characters, as [dec-NNN] has). *)
Theorem symbol_field_ignored (f1 f2 first s1 s2 : string) (rest : list string) :
  Py.split "_" f1 = first :: s1 :: rest ->
  Py.split "_" f2 = first :: s2 :: rest ->
  (7 <= String.length first)%nat ->
  nuclear_data_from_filename f1 = nuclear_data_from_filename f2.
Proof.
  intros H1 H2 Hlen. unfold nuclear_data_from_filename.
  destruct (PyFacts.split_head_prefix _ _ _ _ H1) as [t1 ->].
  destruct (PyFacts.split_head_prefix _ _ _ _ H2) as [t2 ->].
  rewrite !slice_prefix by exact Hlen.
  rewrite H1, H2. reflexivity.
Qed.

Lemma symbol_field_ignored_witness :
  nuclear_data_from_filename "dec-027_Co_060m1.endf"
  = nuclear_data_from_filename "dec-027_Xx_060m1.endf".
Proof.
  apply (symbol_field_ignored _ _ "dec-027" "Co" "Xx" ["060m1.endf"]);
    [reflexivity | reflexivity | simpl; lia].
Defined.

(** C10 as stated fails when the first piece is shorter: these two names
    differ only in their second piece, and decode to different atomic
    numbers, because the positions 4 to 6 fall into that piece. *)
Lemma symbol_field_read_counterexample :
  Py.split "_" "dec_027_060.endf" = ["dec"; "027"; "060.endf"] /\
  Py.split "_" "dec_127_060.endf" = ["dec"; "127"; "060.endf"] /\
  nuclear_data_from_filename "dec_027_060.endf" = Ok (27, 60, 0) /\
  nuclear_data_from_filename "dec_127_060.endf" = Ok (127, 60, 0) /\
  nuclear_data_from_filename "dec_027_060.endf"
    <> nuclear_data_from_filename "dec_127_060.endf".
Proof. repeat split; try reflexivity. discriminate. Qed.

(* ================================================================== *)
(** ** The constructor, step by step *)

Section LoaderFacts.

Context {E : ElementInfo} {F : PyFloat}.
Variable fs : string -> option (list string).





Lemma scale_by_unit_known rate unit :
  In unit half_life_units -> exists rate', scale_by_unit rate unit = Ok rate'.
Proof.
  intros H. simpl in H.
  repeat (destruct H as [<-|H]; [eexists; reflexivity|]). contradiction.
Qed.


(** The table of the decay modes, read from a successful [match]. *)
Lemma decay_changes_ok mode dz dm :
  decay_changes mode = Ok (dz, dm) ->
  (mode = "A" /\ dz = -2 /\ dm = -4) \/
  (mode = "B-" /\ dz = 1 /\ dm = 0) \/
  (mode = "EC" /\ dz = -1 /\ dm = 0).
Proof.
  unfold decay_changes.
  destruct (String.eqb_spec mode "A") as [->|_];
    [intros H; injection H as <- <-; auto|].
  destruct (String.eqb_spec mode "B-") as [->|_];
    [intros H; injection H as <- <-; auto|].
  destruct (String.eqb_spec mode "EC") as [->|_];
    [intros H; injection H as <- <-; auto 6 | discriminate].
Qed.

Section OneFile.

Variables (name : string) (prefix : option string).
Variables (a m e : Z) (fn : string) (lines : list string).
Hypothesis Hname : nuclear_data_from_name name = Ok (a, m, e).
Hypothesis Hfn : filename_from_isomer_name name = Ok fn.
Hypothesis Hfile : fs (resolve_path prefix fn) = Some lines.

(** Once the name is decoded and the file is read, the constructor is the
    parse of the lines. *)
Lemma init_lines :
  IsomerData_init fs name prefix =
    ('(decay_rate_word, decay_rate_unit) <- find_half_life lines ;;
     if String.eqb decay_rate_word "STABLE" then
       Ok (mkIsomerData name a m e true float_zero 0 0)
     else
       rate <- half_life_rate decay_rate_word ;;
       rate <- scale_by_unit rate decay_rate_unit ;;
       decay_mode <- find_decay_mode lines ;;
       '(dz, dm) <- decay_changes decay_mode ;;
       Ok (mkIsomerData name a m e false rate dz dm)).
Proof.
  unfold IsomerData_init. rewrite Hname, Hfn. cbn [bind].
  unfold open_readlines. rewrite Hfile. reflexivity.
Qed.

Lemma init_stable unit :
  find_half_life lines = Ok ("STABLE", unit) ->
  IsomerData_init fs name prefix = Ok (mkIsomerData name a m e true float_zero 0 0).
Proof. intros H. rewrite init_lines, H. reflexivity. Qed.

Lemma init_decaying word unit rate0 rate mode dz dm :
  find_half_life lines = Ok (word, unit) -> word <> "STABLE" ->
  half_life_rate word = Ok rate0 -> scale_by_unit rate0 unit = Ok rate ->
  find_decay_mode lines = Ok mode -> decay_changes mode = Ok (dz, dm) ->
  IsomerData_init fs name prefix = Ok (mkIsomerData name a m e false rate dz dm).
Proof.
  intros Hhl Hw Hr Hs Hm Hd. rewrite init_lines, Hhl. cbn [bind].
  destruct (String.eqb_spec word "STABLE") as [|_]; [contradiction|].
  rewrite Hr. cbn [bind]. rewrite Hs. cbn [bind]. rewrite Hm. cbn [bind].
  rewrite Hd. reflexivity.
Qed.

End OneFile.

End LoaderFacts.

Section ScanFacts.

Lemma find_half_life_first pre line post :
  (forall l, In l pre -> Py.slice 0 16 l <> "Parent half-life") ->
  find_half_life (pre ++ line :: post)
  = if String.eqb (Py.slice 0 16 line) "Parent half-life"
    then (decay_rate_word <- Py.index (Py.split " " line) 2 ;;
          decay_rate_unit <- Py.index (Py.split " " line) 3 ;;
          Ok (decay_rate_word, decay_rate_unit))
    else find_half_life post.
Proof.
  induction pre as [|l pre IH]; intros H; [reflexivity|].
  cbn [List.app find_half_life].
  destruct (String.eqb_spec (Py.slice 0 16 l) "Parent half-life") as [Heq|_].
  - now destruct (H l (or_introl eq_refl)).
  - apply IH. intros l' Hl'. apply H. now right.
Qed.

Lemma find_decay_mode_first pre line post :
  (forall l, In l pre -> Py.slice 0 10 l <> "Decay Mode") ->
  find_decay_mode (pre ++ line :: post)
  = if String.eqb (Py.slice 0 10 line) "Decay Mode"
    then Py.index (Py.split_ws line) 2
    else find_decay_mode post.
Proof.
  induction pre as [|l pre IH]; intros H; [reflexivity|].
  cbn [List.app find_decay_mode].
  destruct (String.eqb_spec (Py.slice 0 10 l) "Decay Mode") as [Heq|_].
  - now destruct (H l (or_introl eq_refl)).
  - apply IH. intros l' Hl'. apply H. now right.
Qed.

(** A scan that found its word stopped at the first marker line. *)
Lemma find_decay_mode_ok lines mode :
  find_decay_mode lines = Ok mode ->
  exists line,
    first_line_with "Decay Mode" lines line /\
    Py.index (Py.split_ws line) 2 = Ok mode.
Proof.
  induction lines as [|l rest IH]; cbn [find_decay_mode]; [discriminate|].
  destruct (String.eqb_spec (Py.slice 0 10 l) "Decay Mode") as [Heq|Hne].
  - intros H. exists l. split; [|exact H].
    exists [], rest. split; [reflexivity|]. split; [intros x []|exact Heq].
  - intros H. destruct (IH H) as (line & (pre & post & -> & Hpre & Hline) & Hmode).
    exists line. split; [|exact Hmode].
    exists (l :: pre), post. split; [reflexivity|]. split; [|exact Hline].
    intros x [<-|Hx]; [exact Hne | now apply Hpre].
Qed.

Lemma find_half_life_at lines line :
  first_line_with "Parent half-life" lines line ->
  find_half_life lines
  = (decay_rate_word <- Py.index (Py.split " " line) 2 ;;
     decay_rate_unit <- Py.index (Py.split " " line) 3 ;;
     Ok (decay_rate_word, decay_rate_unit)).
Proof.
  intros (pre & post & -> & Hpre & Hline).
  rewrite find_half_life_first by exact Hpre.
  change (String.length "Parent half-life") with 16%nat in Hline.
  now rewrite Hline, String.eqb_refl.
Qed.

Lemma find_decay_mode_at lines line :
  first_line_with "Decay Mode" lines line ->
  find_decay_mode lines = Py.index (Py.split_ws line) 2.
Proof.
  intros (pre & post & -> & Hpre & Hline).
  rewrite find_decay_mode_first by exact Hpre.
  change (String.length "Decay Mode") with 10%nat in Hline.
  now rewrite Hline, String.eqb_refl.
Qed.

(** A word without whitespace, read to its end by [split()]. *)
Lemma split_ws_aux_word w : forall cur sp r,
  Py.all_chars (fun c => negb (Py.isspace c)) w = true ->
  Py.isspace sp = true ->
  Py.split_ws_aux (Some cur) (w ++ String sp r)
  = (cur ++ w) :: Py.split_ws_aux None r.
Proof.
  induction w as [|c w IH]; intros cur sp r Hw Hsp.
  - cbn [append Py.split_ws_aux]. rewrite Hsp.
    f_equal. symmetry. apply append_nil_r.
  - cbn [Py.all_chars] in Hw. apply andb_true_iff in Hw as [Hc Hw].
    apply negb_true_iff in Hc.
    cbn [append Py.split_ws_aux]. rewrite Hc, IH by assumption.
    now rewrite PyFacts.append_assoc.
Qed.

(** The layout of a half-life line of a stable parent: the word STABLE
    set off by single spaces behind the marker and its punctuation [x]. *)
Lemma stable_line_read x rest :
  Py.all_chars (fun c => negb (Py.isspace c)) x = true ->
  let line := "Parent half-life" ++ x ++ " STABLE " ++ rest in
  Py.slice 0 16 line = "Parent half-life" /\
  Py.index (Py.split_ws line) 2 = Ok "STABLE" /\
  Py.index (Py.split " " line) 2 = Ok "STABLE" /\
  exists unit, Py.index (Py.split " " line) 3 = Ok unit.
Proof.
  intros Hx line.
  assert (Hsp : Py.all_chars (fun c => negb (Ascii.eqb c " ")) x = true).
  { revert Hx. apply PyFacts.all_chars_impl. intros c Hc.
    destruct (Ascii.eqb_spec c " ") as [->|_]; [discriminate Hc | reflexivity]. }
  split; [reflexivity|]. split; [|split].
  - unfold line, Py.split_ws. cbn -[Py.isspace].
    change (String " " (String "S" (String "T" (String "A" (String "B"
              (String "L" (String "E" (String " " rest))))))))
      with (String " " ("STABLE " ++ rest)).
    rewrite (split_ws_aux_word x "half-life" " ") by (exact Hx || reflexivity).
    reflexivity.
  - unfold line.
    change ("Parent half-life" ++ x ++ " STABLE " ++ rest)
      with ("Parent" ++ String " " (("half-life" ++ x)
              ++ String " " ("STABLE" ++ String " " rest))).
    rewrite !PyFacts.split_app; [reflexivity | reflexivity | | reflexivity].
    rewrite PyFacts.all_chars_app, Hsp. reflexivity.
  - unfold line.
    change ("Parent half-life" ++ x ++ " STABLE " ++ rest)
      with ("Parent" ++ String " " (("half-life" ++ x)
              ++ String " " ("STABLE" ++ String " " rest))).
    rewrite !PyFacts.split_app; [| reflexivity | | reflexivity].
    + cbn [Py.index nth_error].
      destruct (Py.split " " rest) as [|u us] eqn:Hs;
        [now destruct (PyFacts.split_not_nil " " rest) | now exists u].
    + rewrite PyFacts.all_chars_app, Hsp. reflexivity.
Qed.

End ScanFacts.

(** A bind that succeeded: its first computation did. *)
Tactic Notation "bind_ok" hyp(H) "as" simple_intropattern(p) ident(E) :=
  match type of H with
  | bind ?c _ = Ok _ =>
      destruct c as [p|] eqn:E; cbn [bind] in H; [|discriminate H]
  end.

(** C4, evaluated on the code.  The half-life line is cut at single spaces,
    not at runs of whitespace: on a line that ends right after the unit the
    unit keeps the line end, and after a doubled space the value is empty
    and the unit is the value; the whitespace tokens are the value and the
    unit in both lines. *)
Theorem half_life_cut_at_single_spaces :
  let line1 := "Parent half-life: 5.2714 Y" ++ nl in
  let line2 := "Parent half-life:  5.2714 Y 5" ++ nl in
  find_half_life [line1] = Ok ("5.2714", "Y" ++ nl) /\
  Py.index (Py.split_ws line1) 2 = Ok "5.2714" /\
  Py.index (Py.split_ws line1) 3 = Ok "Y" /\
  find_half_life [line2] = Ok (EmptyString, "5.2714") /\
  Py.index (Py.split_ws line2) 2 = Ok "5.2714" /\
  Py.index (Py.split_ws line2) 3 = Ok "Y" /\
  IsomerData_init (E := periodic) (F := symbolic_float)
    (one_file "dec-027_Co_060.endf" (line1 ++ "Decay Mode: B-" ++ nl)) "Co60" None
  = Raise (ValueError ("Unknown Half-Life Unit 'Y" ++ nl ++ "'")).
Proof. repeat split; vm_compute; reflexivity. Qed.

(** C5, as the code has it.  When the first half-life line of the file
    gives the value STABLE as a word of its own, set off by single spaces
    behind the marker, the record is stable with rate 0.0 and both changes
    0, whatever the other lines of the file are (no decay-mode line is
    needed), and [daughter_name] is the name encoded from the atomic number
    and mass at energy state 0: the isomer's own name when that name is the
    ground-state name the codec builds. *)
Theorem stable_record {E : ElementInfo} {L : ElementInfoLaws E} {F : PyFloat}
    (fs : string -> option (list string)) (name : string) (prefix : option string)
    (a m e : Z) (fn : string) (lines : list string) (x rest : string) :
  nuclear_data_from_name name = Ok (a, m, e) ->
  filename_from_isomer_name name = Ok fn ->
  fs (resolve_path prefix fn) = Some lines ->
  Py.all_chars (fun c => negb (Py.isspace c)) x = true ->
  first_line_with "Parent half-life" lines
    ("Parent half-life" ++ x ++ " STABLE " ++ rest) ->
  Py.index (Py.split_ws ("Parent half-life" ++ x ++ " STABLE " ++ rest)) 2
    = Ok "STABLE" /\
  exists r,
    IsomerData_init fs name prefix = Ok r /\
    stable r = true /\ decay_rate r = float_zero /\
    decay_atomic_number_change r = 0 /\ decay_atomic_mass_change r = 0 /\
    daughter_name r = isomer_name_from_nuclear_data a m 0 /\
    (forall a' m', 0 <= m' ->
       isomer_name_from_nuclear_data a' m' 0 = Ok name ->
       daughter_name r = Ok name).
Proof.
  intros Hname Hfn Hfile Hx Hline.
  destruct (stable_line_read x rest Hx) as (_ & Hws & Hword & unit & Hunit).
  split; [exact Hws|].
  assert (Hhl : find_half_life lines = Ok ("STABLE", unit)).
  { rewrite (find_half_life_at lines _ Hline), Hword. cbn [bind].
    rewrite Hunit. reflexivity. }
  exists (mkIsomerData name a m e true float_zero 0 0).
  split; [exact (init_stable fs name prefix a m e fn lines Hname Hfn Hfile unit Hhl)|].
  assert (Hd : daughter_name (mkIsomerData name a m e true float_zero 0 0)
               = isomer_name_from_nuclear_data a m 0).
  { unfold daughter_name. cbn [atomic_number atomic_mass decay_atomic_number_change
                                decay_atomic_mass_change].
    now rewrite !Z.add_0_r. }
  repeat split; try reflexivity; [exact Hd|].
  intros a' m' Hm' Henc. rewrite Hd.
  assert (Hsym : exists sym, get_element_symbol_from_atomic_number a' = Some sym).
  { unfold isomer_name_from_nuclear_data, lookup_symbol in Henc.
    destruct (get_element_symbol_from_atomic_number a') as [sym|];
      [now exists sym | discriminate]. }
  destruct Hsym as [sym Hsym].
  destruct (encode_decode_name a' m' 0 sym Hsym Hm' (Z.le_refl 0)) as [Henc' Hdec].
  rewrite Henc' in Henc. injection Henc as Hn. rewrite Hn in Hdec.
  rewrite Hdec in Hname. injection Hname as -> -> _.
  rewrite Henc', Hn. reflexivity.
Qed.

Lemma stable_record_witness :
  exists r,
    IsomerData_init (E := periodic) (F := symbolic_float)
      (one_file "dec-027_Co_059.endf"
         ("header" ++ nl ++ "Parent half-life: STABLE  " ++ nl))
      "Co59" None = Ok r /\
    stable r = true /\ daughter_name r = Ok "Co59".
Proof.
  destruct (stable_record (E := periodic) (F := symbolic_float)
              (one_file "dec-027_Co_059.endf"
                 ("header" ++ nl ++ "Parent half-life: STABLE  " ++ nl))
              "Co59" None 27 59 0 "dec-027_Co_059.endf"
              ["header" ++ nl; "Parent half-life: STABLE  " ++ nl]
              ":" (" " ++ nl)
              eq_refl eq_refl eq_refl eq_refl)
    as (_ & r & Hr & Hs & _ & _ & _ & _ & Hd).
  - exists ["header" ++ nl], []. split; [reflexivity|]. split; [|reflexivity].
    intros l [<-|[]]. discriminate.
  - exists r. split; [exact Hr|]. split; [exact Hs|].
    apply (Hd 27 59); [lia | reflexivity].
Defined.

(** C5 as stated fails for a metastable name: the file of Ta180m1 reads
    STABLE, and the daughter name is Ta180, not Ta180m1. *)
Lemma stable_daughter_counterexample :
  let fs := one_file "dec-073_Ta_180m1.endf" ("Parent half-life: STABLE  " ++ nl) in
  find_half_life ["Parent half-life: STABLE  " ++ nl] = Ok ("STABLE", EmptyString) /\
  exists r,
    IsomerData_init (E := periodic) (F := symbolic_float) fs "Ta180m1" None = Ok r /\
    stable r = true /\
    isomer_name r = "Ta180m1" /\
    daughter_name r = Ok "Ta180" /\
    daughter_name r <> Ok (isomer_name r).
Proof.
  split; [reflexivity|].
  eexists. split; [vm_compute; reflexivity|].
  repeat split; try reflexivity. vm_compute. discriminate.
Qed.

(** C6.  A record that is not stable was built from a file whose first
    decay-mode line names one of the three modes, and its changes are those
    of that mode; and whenever the constructor gets past the half-life, the
    mode it reads decides the record: A gives (-2, -4), B- gives (+1, 0)
    and EC gives (-1, 0).  The daughter name is the name encoded from the
    atomic number and mass moved by these changes, at energy state 0. *)
Theorem decay_mode_changes {E : ElementInfo} {F : PyFloat}
    (fs : string -> option (list string)) (name : string) (prefix : option string) :
  (forall r,
     IsomerData_init fs name prefix = Ok r -> stable r = false ->
     exists fn lines line mode,
       nuclear_data_from_name name
         = Ok (atomic_number r, atomic_mass r, energy_state r) /\
       filename_from_isomer_name name = Ok fn /\
       fs (resolve_path prefix fn) = Some lines /\
       first_line_with "Decay Mode" lines line /\
       Py.index (Py.split_ws line) 2 = Ok mode /\
       ((mode = "A" /\ decay_atomic_number_change r = -2
                    /\ decay_atomic_mass_change r = -4) \/
        (mode = "B-" /\ decay_atomic_number_change r = 1
                     /\ decay_atomic_mass_change r = 0) \/
        (mode = "EC" /\ decay_atomic_number_change r = -1
                     /\ decay_atomic_mass_change r = 0)) /\
       daughter_name r =
         isomer_name_from_nuclear_data
           (atomic_number r + decay_atomic_number_change r)
           (atomic_mass r + decay_atomic_mass_change r) 0) /\
  (forall a m e fn lines half_life_line word unit rate0 mode_line mode,
     nuclear_data_from_name name = Ok (a, m, e) ->
     filename_from_isomer_name name = Ok fn ->
     fs (resolve_path prefix fn) = Some lines ->
     first_line_with "Parent half-life" lines half_life_line ->
     Py.index (Py.split " " half_life_line) 2 = Ok word ->
     Py.index (Py.split " " half_life_line) 3 = Ok unit ->
     word <> "STABLE" ->
     half_life_rate word = Ok rate0 ->
     In unit half_life_units ->
     first_line_with "Decay Mode" lines mode_line ->
     Py.index (Py.split_ws mode_line) 2 = Ok mode ->
     forall dz dm,
       (mode = "A" /\ dz = -2 /\ dm = -4) \/
       (mode = "B-" /\ dz = 1 /\ dm = 0) \/
       (mode = "EC" /\ dz = -1 /\ dm = 0) ->
       exists r,
         IsomerData_init fs name prefix = Ok r /\
         stable r = false /\
         atomic_number r = a /\ atomic_mass r = m /\
         decay_atomic_number_change r = dz /\
         decay_atomic_mass_change r = dm /\
         daughter_name r = isomer_name_from_nuclear_data (a + dz) (m + dm) 0).
Proof.
  split.
  - intros r Hinit Hstable. unfold IsomerData_init in Hinit.
    bind_ok Hinit as [[a m] e] Hname.
    bind_ok Hinit as fn Hfn.
    bind_ok Hinit as lines Hopen.
    bind_ok Hinit as [word unit] Hhl.
    destruct (String.eqb word "STABLE").
    { injection Hinit as <-. discriminate Hstable. }
    bind_ok Hinit as rate0 Hrate0.
    bind_ok Hinit as rate Hrate.
    bind_ok Hinit as mode Hmode.
    bind_ok Hinit as [dz dm] Hchanges.
    injection Hinit as <-.
    destruct (find_decay_mode_ok lines mode Hmode) as (line & Hline & Hword).
    exists fn, lines, line, mode.
    cbn [atomic_number atomic_mass energy_state decay_atomic_number_change
         decay_atomic_mass_change].
    repeat split; try assumption.
    + unfold open_readlines in Hopen.
      destruct (fs (resolve_path prefix fn)); [now injection Hopen as -> | discriminate].
    + now apply decay_changes_ok.
  - intros a m e fn lines hl word unit rate0 ml mode
           Hname Hfn Hfile Hhl Hword Hunit Hns Hrate Hin Hml Hmode dz dm Hcase.
    destruct (scale_by_unit_known rate0 unit Hin) as [rate Hscale].
    exists (mkIsomerData name a m e false rate dz dm).
    split; [|repeat split].
    apply (init_decaying fs name prefix a m e fn lines Hname Hfn Hfile
             word unit rate0 rate mode dz dm); try assumption.
    + rewrite (find_half_life_at lines hl Hhl), Hword. cbn [bind].
      rewrite Hunit. reflexivity.
    + now rewrite (find_decay_mode_at lines ml Hml).
    + destruct Hcase as [(-> & -> & ->)|[(-> & -> & ->)|(-> & -> & ->)]];
        reflexivity.
Qed.

Lemma decay_mode_changes_witness :
  let alpha := one_file "dec-092_U_238.endf"
                 ("Parent half-life: 4468000000 Y 3" ++ nl ++ "Decay Mode: A" ++ nl) in
  let capture := one_file "dec-004_Be_007.endf"
                   ("Parent half-life: 53.22 D 6" ++ nl ++ "Decay Mode: EC" ++ nl) in
  (exists r,
     IsomerData_init (E := periodic) (F := symbolic_float) alpha "U238" None = Ok r /\
     decay_atomic_number_change r = -2 /\ decay_atomic_mass_change r = -4 /\
     daughter_name r = Ok "Th234") /\
  (exists r,
     IsomerData_init (E := periodic) (F := symbolic_float) capture "Be7" None = Ok r /\
     decay_atomic_number_change r = -1 /\ decay_atomic_mass_change r = 0 /\
     daughter_name r = Ok "Li7").
Proof.
  intros alpha capture. split.
  - destruct (proj2 (decay_mode_changes (E := periodic) (F := symbolic_float)
                       alpha "U238" None)
                92 238 0 "dec-092_U_238.endf"
                ["Parent half-life: 4468000000 Y 3" ++ nl; "Decay Mode: A" ++ nl]
                ("Parent half-life: 4468000000 Y 3" ++ nl) "4468000000" "Y"
                (FLn2Over (FDec 4468000000 0))
                ("Decay Mode: A" ++ nl) "A"
                eq_refl eq_refl eq_refl)
      with (dz := -2) (dm := -4)
      as (r & Hr & _ & _ & _ & Hdz & Hdm & Hd).
    + exists [], ["Decay Mode: A" ++ nl]. split; [reflexivity|].
      split; [intros l [] | reflexivity].
    + reflexivity.
    + reflexivity.
    + discriminate.
    + reflexivity.
    + simpl; tauto.
    + exists ["Parent half-life: 4468000000 Y 3" ++ nl], [].
      split; [reflexivity|]. split; [|reflexivity].
      intros l [<-|[]]. discriminate.
    + reflexivity.
    + left. auto.
    + exists r. rewrite Hd. auto.
  - destruct (proj2 (decay_mode_changes (E := periodic) (F := symbolic_float)
                       capture "Be7" None)
                4 7 0 "dec-004_Be_007.endf"
                ["Parent half-life: 53.22 D 6" ++ nl; "Decay Mode: EC" ++ nl]
                ("Parent half-life: 53.22 D 6" ++ nl) "53.22" "D"
                (FLn2Over (FDec 5322 2))
                ("Decay Mode: EC" ++ nl) "EC"
                eq_refl eq_refl eq_refl)
      with (dz := -1) (dm := 0)
      as (r & Hr & _ & _ & _ & Hdz & Hdm & Hd).
    + exists [], ["Decay Mode: EC" ++ nl]. split; [reflexivity|].
      split; [intros l [] | reflexivity].
    + reflexivity.
    + reflexivity.
    + discriminate.
    + reflexivity.
    + simpl; tauto.
    + exists ["Parent half-life: 53.22 D 6" ++ nl], [].
      split; [reflexivity|]. split; [|reflexivity].
      intros l [<-|[]]. discriminate.
    + reflexivity.
    + right; right. auto.
    + exists r. rewrite Hd. auto.
Defined.




(** The unit is looked at only after the half-life value was converted: a
    value that [float] rejects raises the conversion error first. *)
Lemma value_checked_before_unit {E : ElementInfo} {F : PyFloat}
    (fs : string -> option (list string)) (name : string) (prefix : option string)
    (a m e : Z) (fn : string) (lines : list string) (word unit : string) :
  nuclear_data_from_name name = Ok (a, m, e) ->
  filename_from_isomer_name name = Ok fn ->
  fs (resolve_path prefix fn) = Some lines ->
  find_half_life lines = Ok (word, unit) ->
  word <> "STABLE" ->
  float_of_str word = None ->
  IsomerData_init fs name prefix = Raise (FloatValueError word).
Proof.
  intros Hname Hfn Hfile Hhl Hword Hfloat.
  rewrite (init_lines fs name prefix a m e fn lines Hname Hfn Hfile), Hhl.
  cbn [bind]. destruct (String.eqb_spec word "STABLE") as [|_]; [contradiction|].
  unfold half_life_rate. rewrite Hfloat. reflexivity.
Qed.

(* ================================================================== *)
(** * Further properties of the codec and of the constructor *)

(** ** More on the built-ins: negative integers, pieces of a split *)

Module PyMore.
Import Py PyFacts Decimal.

Lemma str_negative n : n < 0 -> str n = String "-" (str (- n)).
Proof.
  intros Hn. unfold str at 1.
  destruct (Z.ltb_spec n 0); [|lia].
  now rewrite (str_nonneg (- n)) by lia.
Qed.

(** [int(str(n)) == n] for every integer. *)
Lemma int_str_all n : int (str n) = Ok n.
Proof.
  destruct (Z.lt_ge_cases n 0) as [Hn|Hn]; [|now apply int_str].
  assert (Hp : 0 <= - n) by lia.
  pose proof (int_str (- n) Hp) as Hi. unfold int in Hi.
  rewrite strip_digits in Hi by now apply str_digits.
  destruct (str_cons (- n) Hp) as (c & r & Hs & Hc).
  rewrite Hs, int_signed_digits in Hi by exact Hc.
  rewrite str_negative by exact Hn. unfold int, strip.
  rewrite lstrip_first by reflexivity.
  rewrite rstrip_no_space.
  - cbn [int_signed]. change (Ascii.eqb "-" "-") with true. cbv iota.
    rewrite Hs. destruct (int_digits false 0 (String c r)) as [v|]; [|discriminate].
    injection Hi as ->. cbn [option_map]. f_equal; lia.
  - cbn [all_chars]. apply andb_true_iff; split; [reflexivity|].
    pose proof (str_digits (- n) Hp) as Hd. revert Hd.
    apply all_chars_impl. intros x Hx. now rewrite digit_not_int_space.
Qed.

(** [str(n)] is made of digits and at most a minus sign. *)
Lemma str_no_char n x :
  is_digit x = false -> Ascii.eqb "-" x = false ->
  all_chars (fun c => negb (Ascii.eqb c x)) (str n) = true.
Proof.
  intros Hx Hminus.
  destruct (Z.lt_ge_cases n 0) as [Hn|Hn].
  - rewrite str_negative by exact Hn. cbn [all_chars]. rewrite Hminus.
    cbn [negb andb]. apply digits_no_char; [exact Hx | apply str_digits; lia].
  - apply digits_no_char; [exact Hx | now apply str_digits].
Qed.

(** The pieces of [mass ++ suffix], for every energy state. *)
Lemma split_mass_suffix_all d e :
  all_chars (fun c => negb (Ascii.eqb c "m")) d = true ->
  split "m" (d ++ energy_suffix e) = if e =? 0 then [d] else [d; str e].
Proof.
  intros Hd. unfold energy_suffix. destruct (e =? 0).
  - rewrite append_nil_r. now apply split_none.
  - cbn [append]. rewrite split_app by exact Hd.
    rewrite split_none; [reflexivity|]. now apply str_no_char.
Qed.

Lemma energy_state_of_suffix_all d e :
  energy_state_of (if e =? 0 then [d] else [d; str e]) = Ok e.
Proof.
  destruct (Z.eqb_spec e 0) as [->|_]; [reflexivity|].
  cbn [energy_state_of nth_error]. apply int_str_all.
Qed.

Lemma suffix_no_char_all x e :
  is_digit x = false -> Ascii.eqb "m" x = false -> Ascii.eqb "-" x = false ->
  no_char x (energy_suffix e) = true.
Proof.
  intros Hx Hm Hminus. unfold energy_suffix, no_char.
  destruct (e =? 0); [reflexivity|].
  cbn [append all_chars]. rewrite Hm. cbn [negb andb].
  now apply str_no_char.
Qed.

(** A split has one piece more than there are separators. *)
Lemma split_length sep s : List.length (split sep s) = S (count_char sep s).
Proof.
  induction s as [|c s IH]; [reflexivity|].
  cbn [split count_char]. destruct (Ascii.eqb c sep).
  - cbn [List.length]. now rewrite IH.
  - destruct (split sep s) as [|p ps]; [discriminate IH | exact IH].
Qed.

(** Splitting behind a prefix without separator. *)
Lemma split_app_head sep s t :
  all_chars (fun c => negb (Ascii.eqb c sep)) s = true ->
  split sep (s ++ t) =
    (s ++ hd EmptyString (split sep t)) :: tl (split sep t).
Proof.
  induction s as [|c s IH]; intros H.
  - cbn [append]. destruct (split sep t) as [|p ps] eqn:Hs;
      [now destruct (split_not_nil sep t) | reflexivity].
  - cbn [all_chars] in H. apply andb_true_iff in H as [Hc Hs].
    apply negb_true_iff in Hc. cbn [append split]. rewrite Hc, (IH Hs).
    reflexivity.
Qed.

Lemma index_out_of_range {A : Type} (l : list A) i :
  (List.length l <= i)%nat -> index l i = Raise IndexError.
Proof.
  intros H. unfold index.
  now rewrite (proj2 (nth_error_None l i) H).
Qed.

Lemma take_all s : take (String.length s) s = s.
Proof. induction s as [|c s IH]; simpl; [reflexivity | now rewrite IH]. Qed.

Lemma take_length k s :
  (k <= String.length s)%nat -> String.length (take k s) = k.
Proof.
  revert s; induction k as [|k IH]; intros s Hk; [reflexivity|].
  destruct s as [|c s]; cbn [String.length] in Hk; [lia|].
  cbn [take String.length]. rewrite IH by lia. reflexivity.
Qed.

Lemma take_all_chars p k s :
  all_chars p s = true -> all_chars p (take k s) = true.
Proof.
  revert s; induction k as [|k IH]; intros s H; [reflexivity|].
  destruct s as [|c s]; [reflexivity|].
  cbn [all_chars] in H. apply andb_true_iff in H as [Hc Hs].
  cbn [take all_chars]. now rewrite Hc, IH.
Qed.

End PyMore.

(** ** The codec beyond the supported range *)

Section CodecMore.
Import Py PyFacts Decimal PyMore.

Context {E : ElementInfo}.

(** What [nuclear_data_from_filename] reads of a file name: three
    characters behind the first four, and the third underscore piece up to
    its first dot. *)
Lemma decode_fields p4 za sym body tail :
  String.length p4 = 4%nat -> no_char "_" p4 = true ->
  (3 <= String.length za)%nat -> no_char "_" za = true ->
  no_char "_" sym = true ->
  no_char "_" body = true -> no_char "." body = true ->
  match tail with
  | EmptyString => True
  | String c _ => c = "."%char \/ c = "_"%char
  end ->
  nuclear_data_from_filename (p4 ++ za ++ "_" ++ sym ++ "_" ++ body ++ tail)
  = (atomic_number <- int (take 3 za) ;;
     m0 <- index (split "m" body) 0 ;;
     atomic_mass <- int m0 ;;
     energy_state <- energy_state_of (split "m" body) ;;
     Ok (atomic_number, atomic_mass, energy_state)).
Proof.
  intros Hp4 Hp4u Hza Hzau Hsym Hbu Hbd Htail.
  unfold nuclear_data_from_filename.
  assert (Hslice : forall t, slice 4 7 (p4 ++ za ++ t) = take 3 za).
  { intros t. unfold slice.
    pose proof (drop_app p4 (za ++ t)) as Hdrop. rewrite Hp4 in Hdrop.
    rewrite Hdrop. cbn [Nat.sub]. now apply take_prefix. }
  rewrite Hslice.
  destruct (int (take 3 za)) as [a|ex]; [cbn [bind] | reflexivity].
  assert (Hsplit :
    index (split "_" (p4 ++ za ++ "_" ++ sym ++ "_" ++ body ++ tail)) 2
    = Ok (body ++ hd EmptyString (split "_" tail))).
  { change (p4 ++ za ++ "_" ++ sym ++ "_" ++ body ++ tail)
      with (p4 ++ (za ++ String "_" (sym ++ String "_" (body ++ tail)))).
    rewrite <- append_assoc. rewrite split_app.
    2:{ fold (no_char "_" (p4 ++ za)).
        rewrite no_char_app, Hp4u, Hzau. reflexivity. }
    rewrite split_app by exact Hsym.
    rewrite split_app_head by exact Hbu. reflexivity. }
  rewrite Hsplit. cbn [bind].
  assert (Hdot : index (split "." (body ++ hd EmptyString (split "_" tail))) 0
                 = Ok body).
  { rewrite split_app_head by exact Hbd. cbn [index nth_error]. do 2 f_equal.
    destruct tail as [|c t]; [apply append_nil_r|].
    destruct Htail as [-> | ->].
    - cbn [split]. change (Ascii.eqb "." "_") with false. cbv iota.
      destruct (split "_" t) as [|p ps]; cbn [hd split];
        change (Ascii.eqb "." ".") with true; cbv iota;
        apply append_nil_r.
    - cbn [split]. change (Ascii.eqb "_" "_") with true. cbv iota.
      apply append_nil_r. }
  rewrite Hdot. reflexivity.
Qed.

Lemma digit_val_range c : is_digit c = true -> 0 <= digit_val c <= 9.
Proof.
  unfold is_digit, digit_val. intros H.
  apply andb_true_iff in H as [H1 H2].
  apply Nat.leb_le in H1; apply Nat.leb_le in H2. lia.
Qed.

(** Three digits read as a number below 1000. *)
Lemma int_three_digits s :
  all_chars is_digit s = true -> String.length s = 3%nat ->
  exists v, int s = Ok v /\ 0 <= v < 1000.
Proof.
  intros Hd Hlen. unfold int. rewrite strip_digits by exact Hd.
  destruct s as [|c1 [|c2 [|c3 [|c4 s]]]]; try discriminate Hlen.
  cbn [all_chars] in Hd.
  apply andb_true_iff in Hd as [H1 Hd]. apply andb_true_iff in Hd as [H2 Hd].
  apply andb_true_iff in Hd as [H3 _].
  rewrite int_signed_digits by exact H1.
  cbn [int_digits]. rewrite H1, H2, H3.
  pose proof (digit_val_range c1 H1). pose proof (digit_val_range c2 H2).
  pose proof (digit_val_range c3 H3).
  eexists; split; [reflexivity | lia].
Qed.

(** At least as many digits as the size of the number asks for. *)
Lemma str_of_nonneg_length_lower fuel : forall n acc k,
  0 <= n < 2 ^ Z.of_nat (S fuel) -> 10 ^ Z.of_nat k <= n ->
  (k + 1 + String.length acc <= String.length (str_of_nonneg (S fuel) n acc))%nat.
Proof.
  induction fuel as [|f IH]; intros n acc k Hn Hk.
  - change (2 ^ Z.of_nat 1) with 2 in Hn.
    assert (0 < 10 ^ Z.of_nat k) by (apply Z.pow_pos_nonneg; lia).
    destruct k as [|k].
    + cbn [str_of_nonneg]. destruct (n <? 10); cbn [String.length]; lia.
    + rewrite Nat2Z.inj_succ, Z.pow_succ_r in Hk by lia.
      assert (0 < 10 ^ Z.of_nat k) by (apply Z.pow_pos_nonneg; lia). lia.
  - change (str_of_nonneg (S (S f)) n acc)
      with (if n <? 10 then String (digit_char (n mod 10)) acc
            else str_of_nonneg (S f) (n / 10) (String (digit_char (n mod 10)) acc)).
    destruct (Z.ltb_spec n 10) as [Hlt|Hge].
    + destruct k as [|k]; [cbn [String.length]; lia|].
      rewrite Nat2Z.inj_succ, Z.pow_succ_r in Hk by lia.
      assert (0 < 10 ^ Z.of_nat k) by (apply Z.pow_pos_nonneg; lia). lia.
    + assert (Hq : 0 <= n / 10 < 2 ^ Z.of_nat (S f)).
      { rewrite (Nat2Z.inj_succ (S f)), Z.pow_succ_r in Hn by lia.
        split; [apply Z.div_pos; lia | apply Z.div_lt_upper_bound; lia]. }
      destruct k as [|k].
      * specialize (IH (n / 10) (String (digit_char (n mod 10)) acc) 0%nat Hq).
        cbn [String.length] in IH.
        assert (10 ^ Z.of_nat 0 <= n / 10).
        { change (10 ^ Z.of_nat 0) with 1. apply Z.div_le_lower_bound; lia. }
        specialize (IH ltac:(assumption)). lia.
      * specialize (IH (n / 10) (String (digit_char (n mod 10)) acc) k Hq).
        cbn [String.length] in IH.
        rewrite Nat2Z.inj_succ, Z.pow_succ_r in Hk by lia.
        assert (10 ^ Z.of_nat k <= n / 10) by (apply Z.div_le_lower_bound; lia).
        specialize (IH ltac:(assumption)). lia.
Qed.

Lemma str_length_lower n k :
  10 ^ Z.of_nat k <= n -> (k + 1 <= String.length (str n))%nat.
Proof.
  intros Hk.
  assert (0 < 10 ^ Z.of_nat k) by (apply Z.pow_pos_nonneg; lia).
  assert (Hn : 0 <= n) by lia.
  rewrite str_nonneg by exact Hn. unfold digits_fuel.
  pose proof (str_of_nonneg_length_lower (Z.to_nat (Z.log2 n)) n EmptyString k) as H1.
  cbn [String.length] in H1.
  pose proof (digits_fuel_enough n Hn) as Hfuel. unfold digits_fuel in Hfuel.
  specialize (H1 (conj Hn Hfuel) Hk). lia.
Qed.

End CodecMore.

Section CodecRoundTrips.
Import Py PyFacts Decimal PyMore.

Context {E : ElementInfo}.

Lemma isomer_name_from_nuclear_data_eq a m e sym :
  get_element_symbol_from_atomic_number a = Some sym ->
  isomer_name_from_nuclear_data a m e = Ok (sym ++ str m ++ energy_suffix e).
Proof.
  intros Hsym. unfold isomer_name_from_nuclear_data, lookup_symbol.
  rewrite Hsym. cbn [bind]. now rewrite append_assoc.
Qed.

(** An encoder that succeeded found the symbol. *)
Lemma isomer_name_known a m e name :
  isomer_name_from_nuclear_data a m e = Ok name ->
  exists sym, get_element_symbol_from_atomic_number a = Some sym.
Proof.
  unfold isomer_name_from_nuclear_data, lookup_symbol.
  destruct (get_element_symbol_from_atomic_number a) as [sym|];
    [now exists sym | discriminate].
Qed.

Lemma filename_known a m e fn :
  filename_from_nuclear_data a m e = Ok fn ->
  exists sym, get_element_symbol_from_atomic_number a = Some sym.
Proof.
  unfold filename_from_nuclear_data, lookup_symbol.
  destruct (get_element_symbol_from_atomic_number a) as [sym|];
    [now exists sym | discriminate].
Qed.

(** Decoding an encoded name, for every energy state. *)
Lemma decode_encoded_name sym a m e :
  no_numeric sym = true ->
  get_atomic_number_from_element_symbol sym = Some a ->
  0 <= m ->
  nuclear_data_from_name (sym ++ str m ++ energy_suffix e) = Ok (a, m, e).
Proof.
  intros Hsym Ha Hm.
  destruct (str_cons m Hm) as (c & r & Hs & Hc).
  assert (Hd : all_chars is_digit (String c r) = true)
    by (rewrite <- Hs; now apply str_digits).
  rewrite Hs. cbn [append].
  rewrite (nuclear_data_from_name_tail sym a c (r ++ energy_suffix e) Hsym
             (digit_numeric c Hc) Ha).
  change (String c (r ++ energy_suffix e)) with (String c r ++ energy_suffix e).
  rewrite split_mass_suffix_all by now apply digits_no_char.
  rewrite energy_state_of_suffix_all.
  replace (index (if e =? 0 then [String c r] else [String c r; str e]) 0)
    with (Ok (String c r)) by now destruct (e =? 0).
  cbn [bind]. rewrite <- Hs, int_str by exact Hm. reflexivity.
Qed.

(** Decoding an encoded file name, for every energy state and every
    non-negative mass; [zn] is the printed atomic number. *)
Lemma decode_encoded_filename sym a m e :
  no_char "_" sym = true -> 0 <= a -> 0 <= m ->
  nuclear_data_from_filename
    ("dec-" ++ zfill 3 (str a) ++ "_" ++ sym ++ "_" ++ zfill 3 (str m)
            ++ energy_suffix e ++ ".endf")
  = (atomic_number <- int (take 3 (zfill 3 (str a))) ;;
     Ok (atomic_number, m, e)).
Proof.
  intros Hsym Ha Hm.
  pose proof (zfill_digits a Ha 3) as Hza.
  pose proof (zfill_digits m Hm 3) as Hzm.
  rewrite <- (append_assoc (zfill 3 (str m)) (energy_suffix e) ".endf").
  rewrite decode_fields; try reflexivity; try assumption.
  - rewrite split_mass_suffix_all by now apply digits_no_char.
    rewrite energy_state_of_suffix_all.
    replace (index (if e =? 0 then [zfill 3 (str m)]
                    else [zfill 3 (str m); str e]) 0)
      with (Ok (zfill 3 (str m))) by now destruct (e =? 0).
    destruct (int (take 3 (zfill 3 (str a)))); [|reflexivity].
    cbn [bind]. now rewrite int_zfill.
  - rewrite zfill_str, zeros_length by exact Ha. lia.
  - now apply digits_no_char'.
  - rewrite no_char_app, digits_no_char', suffix_no_char_all by
      (assumption || reflexivity). reflexivity.
  - rewrite no_char_app, digits_no_char', suffix_no_char_all by
      (assumption || reflexivity). reflexivity.
  - now left.
Qed.

End CodecRoundTrips.

Lemma single_element_laws a symbol :
  no_numeric symbol = true -> no_char "_" symbol = true ->
  ElementInfoLaws (single_element a symbol).
Proof.
  intros Hn Hu. split; cbn [get_element_symbol_from_atomic_number
    get_atomic_number_from_element_symbol single_element]; intros n s H;
    destruct (Z.eqb_spec n a) as [->|_]; try discriminate H;
    injection H as <-.
  - now rewrite String.eqb_refl.
  - exact Hn.
  - exact Hu.
Qed.

(** X1.  The round trip through the isomer name holds beyond the
    three-digit range and for negative energy states: for every
    non-negative mass and every integer energy state that the interpreter
    converts to a string (at most [int_max_str_digits] digits); only a zero
    energy state has no suffix. *)
Theorem name_round_trip_any_energy {E : ElementInfo} {L : ElementInfoLaws E}
    (atomic_number atomic_mass energy_state : Z) (symbol : string) :
  get_element_symbol_from_atomic_number atomic_number = Some symbol ->
  0 <= atomic_mass < 10 ^ Py.int_max_str_digits ->
  - 10 ^ Py.int_max_str_digits < energy_state < 10 ^ Py.int_max_str_digits ->
  (name <- isomer_name_from_nuclear_data atomic_number atomic_mass energy_state ;;
   nuclear_data_from_name name)
  = Ok (atomic_number, atomic_mass, energy_state).
Proof.
  intros Hsym [Hm _] _.
  rewrite (isomer_name_from_nuclear_data_eq _ _ _ _ Hsym). cbn [bind].
  apply decode_encoded_name; [| |exact Hm].
  - exact (symbol_no_numeric _ _ Hsym).
  - exact (symbol_number _ _ Hsym).
Qed.

Lemma name_round_trip_any_energy_witness :
  (name <- isomer_name_from_nuclear_data (E := periodic) 92 12345 (-3) ;;
   nuclear_data_from_name name) = Ok (92, 12345, -3).
Proof.
  apply (name_round_trip_any_energy (E := periodic) 92 12345 (-3) "U");
    [reflexivity | split | split]; (lia || (vm_compute; reflexivity)).
Defined.

(** X2.  The round trip through the file name needs the three-digit range
    for the atomic number only: it holds for every non-negative mass and
    every integer energy state that the interpreter converts to a string
    (at most [int_max_str_digits] digits). *)
Theorem filename_round_trip_any_mass {E : ElementInfo} {L : ElementInfoLaws E}
    (atomic_number atomic_mass energy_state : Z) (symbol : string) :
  get_element_symbol_from_atomic_number atomic_number = Some symbol ->
  0 <= atomic_number < 1000 ->
  0 <= atomic_mass < 10 ^ Py.int_max_str_digits ->
  - 10 ^ Py.int_max_str_digits < energy_state < 10 ^ Py.int_max_str_digits ->
  (filename <- filename_from_nuclear_data atomic_number atomic_mass energy_state ;;
   nuclear_data_from_filename filename)
  = Ok (atomic_number, atomic_mass, energy_state).
Proof.
  intros Hsym [Ha Ha'] [Hm _] _.
  rewrite (filename_from_nuclear_data_eq _ _ _ _ Hsym). cbn [bind].
  rewrite decode_encoded_filename; try assumption.
  - rewrite <- (Decimal.zfill3_length atomic_number Ha Ha') at 1.
    rewrite PyMore.take_all, Decimal.int_zfill by exact Ha. reflexivity.
  - exact (symbol_no_underscore _ _ Hsym).
Qed.

Lemma filename_round_trip_any_mass_witness :
  (filename <- filename_from_nuclear_data (E := periodic) 92 12345 (-3) ;;
   nuclear_data_from_filename filename) = Ok (92, 12345, -3).
Proof.
  apply (filename_round_trip_any_mass (E := periodic) 92 12345 (-3) "U");
    [reflexivity | lia | split | split]; (lia || (vm_compute; reflexivity)).
Defined.

(** X3.  With an atomic number of 1000 or more the file name keeps all its
    digits, and the decoder reads the first three: the atomic number that
    comes back is below 1000, so it is not the one encoded; mass and energy
    state still come back. *)
Theorem filename_atomic_number_truncated {E : ElementInfo} {L : ElementInfoLaws E}
    (atomic_number atomic_mass energy_state : Z) (symbol : string) :
  get_element_symbol_from_atomic_number atomic_number = Some symbol ->
  1000 <= atomic_number -> 0 <= atomic_mass ->
  exists read,
    (filename <- filename_from_nuclear_data atomic_number atomic_mass energy_state ;;
     nuclear_data_from_filename filename)
    = Ok (read, atomic_mass, energy_state) /\
    0 <= read < 1000 /\ read <> atomic_number.
Proof.
  intros Hsym Ha Hm.
  assert (Ha0 : 0 <= atomic_number) by lia.
  rewrite (filename_from_nuclear_data_eq _ _ _ _ Hsym). cbn [bind].
  rewrite decode_encoded_filename; try assumption;
    [|exact (symbol_no_underscore _ _ Hsym)].
  assert (Hlen : (3 + 1 <= String.length (Py.str atomic_number))%nat).
  { apply str_length_lower. change (10 ^ Z.of_nat 3) with 1000. exact Ha. }
  rewrite Decimal.zfill_str by exact Ha0.
  replace (3 - String.length (Py.str atomic_number))%nat with 0%nat by lia.
  cbn [Py.zeros].
  destruct (int_three_digits (Py.take 3 (Py.str atomic_number))) as (v & Hv & Hr).
  - apply PyMore.take_all_chars. now apply Decimal.str_digits.
  - apply PyMore.take_length. lia.
  - exists v. rewrite Hv. cbn [bind]. repeat split; lia.
Qed.

Lemma filename_atomic_number_truncated_witness :
  exists read,
    (filename <- filename_from_nuclear_data (E := single_element 1234 "Xx") 1234 300 0 ;;
     nuclear_data_from_filename filename) = Ok (read, 300, 0) /\
    0 <= read < 1000 /\ read <> 1234.
Proof.
  apply (filename_atomic_number_truncated
           (E := single_element 1234 "Xx")
           (L := single_element_laws 1234 "Xx" eq_refl eq_refl)
           1234 300 0 "Xx"); [reflexivity | lia | lia].
Defined.

Section DecodedNames.
Import Py PyFacts Decimal PyMore.

Context {E : ElementInfo}.

(** Numeric characters are not stripped by [int], no sign and not the [m]. *)
Lemma numeric_other c :
  isnumeric c = true ->
  int_space c = false /\ Ascii.eqb c "-" = false /\ Ascii.eqb c "+" = false /\
  Ascii.eqb c "m" = false.
Proof.
  destruct c as [[] [] [] [] [] [] [] []]; vm_compute; intros H;
    (discriminate H || (repeat split; reflexivity)).
Qed.

Lemma int_digits_nonneg s : forall b v m,
  0 <= v -> int_digits b v s = Some m -> 0 <= m.
Proof.
  induction s as [|c s IH]; intros b v m Hv; cbn [int_digits].
  - destruct b; [intros H; injection H as <-; exact Hv | discriminate].
  - destruct (is_digit c) eqn:Hc.
    + apply IH. pose proof (digit_val_range c Hc). lia.
    + destruct (Ascii.eqb c "_" && b); [now apply IH | discriminate].
Qed.

Lemma rstrip_head c r :
  int_space c = false -> exists q, rstrip (String c r) = String c q.
Proof.
  intros Hc. cbn [rstrip]. rewrite Hc.
  destruct (rstrip r) as [|x q]; eexists; reflexivity.
Qed.

(** A literal that starts with a numeric character has no sign. *)
Lemma int_numeric_head_nonneg c r m :
  isnumeric c = true -> int (String c r) = Ok m -> 0 <= m.
Proof.
  intros Hc. destruct (numeric_other c Hc) as (Hsp & Hminus & Hplus & _).
  unfold int, strip. rewrite lstrip_first by exact Hsp.
  destruct (rstrip_head c r Hsp) as [q ->].
  cbn [int_signed]. rewrite Hminus, Hplus.
  destruct (int_digits false 0 (String c q)) as [v|] eqn:Hv; [|discriminate].
  intros H; injection H as <-.
  exact (int_digits_nonneg _ _ _ _ (Z.le_refl 0) Hv).
Qed.

(** Where the first numeric character is. *)
Lemma first_numeric_some s : forall j i,
  first_numeric j s = Some i ->
  (j <= i)%nat /\
  no_numeric (take (i - j) s) = true /\
  exists c r, drop (i - j) s = String c r /\ isnumeric c = true.
Proof.
  induction s as [|x s IH]; intros j i; cbn [first_numeric]; [discriminate|].
  destruct (isnumeric x) eqn:Hx.
  - intros H; injection H as <-. rewrite Nat.sub_diag.
    split; [lia|]. split; [reflexivity|]. now exists x, s.
  - intros H. destruct (IH _ _ H) as (Hle & Hno & c & r & Hd & Hc).
    split; [lia|].
    replace (i - j)%nat with (S (i - S j)) by lia.
    cbn [take drop no_numeric all_chars]. rewrite Hx. cbn [negb andb].
    split; [exact Hno|]. now exists c, r.
Qed.

(** The head of the first piece of a split. *)
Lemma split_head_cons sep c r :
  Ascii.eqb c sep = false ->
  exists p ps, split sep (String c r) = String c p :: ps.
Proof.
  intros Hc. cbn [split]. rewrite Hc.
  destruct (split sep r) as [|p ps]; eexists; eexists; reflexivity.
Qed.

(** What a decoded name tells. *)
Lemma nuclear_data_from_name_ok name a m e :
  nuclear_data_from_name name = Ok (a, m, e) ->
  0 <= m /\
  exists i,
    first_numeric 0 name = Some i /\
    no_numeric (take i name) = true /\
    get_atomic_number_from_element_symbol (take i name) = Some a.
Proof.
  unfold nuclear_data_from_name.
  destruct (first_numeric 0 name) as [i|] eqn:Hi; [|discriminate].
  destruct (first_numeric_some name 0 i Hi) as (_ & Hno & c & r & Hd & Hc).
  rewrite Nat.sub_0_r in Hno, Hd. rewrite Hd.
  unfold lookup_number.
  destruct (get_atomic_number_from_element_symbol (take i name)) as [a'|] eqn:Ha;
    [cbn [bind] | discriminate].
  destruct (numeric_other c Hc) as (_ & _ & _ & Hm).
  destruct (split_head_cons "m" c r Hm) as (p & ps & ->).
  cbn [index nth_error bind].
  destruct (int (String c p)) as [m'|] eqn:Hint; [cbn [bind] | discriminate].
  destruct (energy_state_of (String c p :: ps)); [cbn [bind] | discriminate].
  intros H; injection H as -> -> ->.
  split; [exact (int_numeric_head_nonneg c p m Hc Hint)|].
  exists i. repeat split; (assumption || reflexivity).
Qed.

End DecodedNames.

(** X4.  A name that decodes has a non-negative mass, and its atomic
    number is what the element table gives for the characters before the
    first numeric character. *)
Theorem decoded_mass_nonnegative {E : ElementInfo}
    (isomer_name : string) (atomic_number atomic_mass energy_state : Z) :
  nuclear_data_from_name isomer_name = Ok (atomic_number, atomic_mass, energy_state) ->
  0 <= atomic_mass /\
  exists i,
    first_numeric 0 isomer_name = Some i /\
    no_numeric (Py.take i isomer_name) = true /\
    get_atomic_number_from_element_symbol (Py.take i isomer_name) = Some atomic_number.
Proof. apply nuclear_data_from_name_ok. Qed.

Lemma decoded_mass_nonnegative_witness :
  0 <= 60 /\
  exists i,
    first_numeric 0 "Co60m-1" = Some i /\
    no_numeric (Py.take i "Co60m-1") = true /\
    get_atomic_number_from_element_symbol (ElementInfo := periodic)
      (Py.take i "Co60m-1") = Some 27.
Proof.
  apply (decoded_mass_nonnegative (E := periodic) "Co60m-1" 27 60 (-1)).
  reflexivity.
Defined.

(** X5.  The file name built for a name decodes to the nuclear data of the
    name, whenever the atomic number is in the three-digit range: names
    with leading zeros in the mass or a negative energy state included. *)
Theorem filename_of_name_decodes {E : ElementInfo} {L : ElementInfoLaws E}
    (isomer_name filename : string) (atomic_number atomic_mass energy_state : Z) :
  nuclear_data_from_name isomer_name = Ok (atomic_number, atomic_mass, energy_state) ->
  filename_from_isomer_name isomer_name = Ok filename ->
  0 <= atomic_number < 1000 ->
  nuclear_data_from_filename filename = Ok (atomic_number, atomic_mass, energy_state).
Proof.
  intros Hname Hfn [Ha Ha'].
  destruct (nuclear_data_from_name_ok _ _ _ _ Hname) as [Hm _].
  unfold filename_from_isomer_name in Hfn. rewrite Hname in Hfn. cbn [bind] in Hfn.
  destruct (filename_known _ _ _ _ Hfn) as [sym Hsym].
  rewrite (filename_from_nuclear_data_eq _ _ _ _ Hsym) in Hfn.
  assert (Hf : filename =
    "dec-" ++ Py.zfill 3 (Py.str atomic_number) ++ "_" ++ sym ++ "_"
           ++ Py.zfill 3 (Py.str atomic_mass) ++ energy_suffix energy_state
           ++ ".endf")
    by (injection Hfn as H; exact (eq_sym H)).
  rewrite Hf, decode_encoded_filename; try assumption.
  - rewrite <- (Decimal.zfill3_length atomic_number Ha Ha') at 1.
    rewrite PyMore.take_all, Decimal.int_zfill by exact Ha. reflexivity.
  - exact (symbol_no_underscore _ _ Hsym).
Qed.

Lemma filename_of_name_decodes_witness :
  nuclear_data_from_filename "dec-027_Co_060m-1.endf" = Ok (27, 60, -1).
Proof.
  apply (filename_of_name_decodes (E := periodic) "Co0060m-1"
           "dec-027_Co_060m-1.endf" 27 60 (-1));
    [reflexivity | reflexivity | lia].
Defined.

(** X6.  The conversions compose: the file name of an encoded name is the
    encoded file name, and the name of an encoded file name is the encoded
    name (the latter for atomic numbers in the three-digit range). *)
Theorem conversions_compose {E : ElementInfo} {L : ElementInfoLaws E}
    (atomic_number atomic_mass energy_state : Z) (symbol : string) :
  get_element_symbol_from_atomic_number atomic_number = Some symbol ->
  0 <= atomic_mass ->
  (name <- isomer_name_from_nuclear_data atomic_number atomic_mass energy_state ;;
   filename_from_isomer_name name)
  = filename_from_nuclear_data atomic_number atomic_mass energy_state /\
  (0 <= atomic_number < 1000 ->
   (filename <- filename_from_nuclear_data atomic_number atomic_mass energy_state ;;
    isomer_name_from_filename filename)
   = isomer_name_from_nuclear_data atomic_number atomic_mass energy_state).
Proof.
  intros Hsym Hm. split.
  - rewrite (isomer_name_from_nuclear_data_eq _ _ _ _ Hsym). cbn [bind].
    unfold filename_from_isomer_name.
    rewrite (decode_encoded_name symbol atomic_number atomic_mass energy_state
               (symbol_no_numeric _ _ Hsym) (symbol_number _ _ Hsym) Hm).
    reflexivity.
  - intros [Ha Ha'].
    rewrite (filename_from_nuclear_data_eq _ _ _ _ Hsym). cbn [bind].
    unfold isomer_name_from_filename.
    rewrite decode_encoded_filename; try assumption;
      [|exact (symbol_no_underscore _ _ Hsym)].
    rewrite <- (Decimal.zfill3_length atomic_number Ha Ha') at 1.
    rewrite PyMore.take_all, Decimal.int_zfill by exact Ha. reflexivity.
Qed.

Lemma conversions_compose_witness :
  filename_from_isomer_name (E := periodic) "Co60m1" = Ok "dec-027_Co_060m1.endf" /\
  isomer_name_from_filename (E := periodic) "dec-027_Co_060m1.endf" = Ok "Co60m1".
Proof.
  destruct (conversions_compose (E := periodic) 27 60 1 "Co" eq_refl
              ltac:(lia)) as [H1 H2].
  split; [exact H1 | apply H2; lia].
Defined.

Lemma int_take3_zfill a :
  0 <= a < 1000 -> Py.int (Py.take 3 (Py.zfill 3 (Py.str a))) = Ok a.
Proof.
  intros [Ha Ha'].
  pose proof (PyMore.take_all (Py.zfill 3 (Py.str a))) as H.
  rewrite (Decimal.zfill3_length a Ha Ha') in H.
  rewrite H. now apply Decimal.int_zfill.
Qed.

(** X7.  The encoders are injective: two triples with non-negative masses
    that get the same isomer name are equal, and so are two triples with
    atomic numbers in the three-digit range that get the same file name. *)
Theorem encoders_injective {E : ElementInfo} {L : ElementInfoLaws E}
    (a1 m1 e1 a2 m2 e2 : Z) (s : string) :
  0 <= m1 -> 0 <= m2 ->
  (isomer_name_from_nuclear_data a1 m1 e1 = Ok s ->
   isomer_name_from_nuclear_data a2 m2 e2 = Ok s ->
   (a1, m1, e1) = (a2, m2, e2)) /\
  (0 <= a1 < 1000 -> 0 <= a2 < 1000 ->
   filename_from_nuclear_data a1 m1 e1 = Ok s ->
   filename_from_nuclear_data a2 m2 e2 = Ok s ->
   (a1, m1, e1) = (a2, m2, e2)).
Proof.
  intros Hm1 Hm2. split.
  - intros H1 H2.
    destruct (isomer_name_known _ _ _ _ H1) as [s1 Hs1].
    destruct (isomer_name_known _ _ _ _ H2) as [s2 Hs2].
    pose proof (decode_encoded_name s1 a1 m1 e1 (symbol_no_numeric _ _ Hs1)
                  (symbol_number _ _ Hs1) Hm1) as D1.
    pose proof (decode_encoded_name s2 a2 m2 e2 (symbol_no_numeric _ _ Hs2)
                  (symbol_number _ _ Hs2) Hm2) as D2.
    rewrite (isomer_name_from_nuclear_data_eq _ _ _ _ Hs1) in H1.
    rewrite (isomer_name_from_nuclear_data_eq _ _ _ _ Hs2) in H2.
    assert (Heq : s1 ++ Py.str m1 ++ energy_suffix e1
                  = s2 ++ Py.str m2 ++ energy_suffix e2) by congruence.
    rewrite Heq in D1. congruence.
  - intros [Ha1 Ha1'] [Ha2 Ha2'] H1 H2.
    destruct (filename_known _ _ _ _ H1) as [s1 Hs1].
    destruct (filename_known _ _ _ _ H2) as [s2 Hs2].
    pose proof (decode_encoded_filename s1 a1 m1 e1 (symbol_no_underscore _ _ Hs1)
                  Ha1 Hm1) as D1.
    pose proof (decode_encoded_filename s2 a2 m2 e2 (symbol_no_underscore _ _ Hs2)
                  Ha2 Hm2) as D2.
    rewrite int_take3_zfill in D1 by lia.
    rewrite int_take3_zfill in D2 by lia.
    cbn [bind] in D1, D2.
    rewrite (filename_from_nuclear_data_eq _ _ _ _ Hs1) in H1.
    rewrite (filename_from_nuclear_data_eq _ _ _ _ Hs2) in H2.
    assert (Heq :
      "dec-" ++ Py.zfill 3 (Py.str a1) ++ "_" ++ s1 ++ "_"
             ++ Py.zfill 3 (Py.str m1) ++ energy_suffix e1 ++ ".endf"
      = "dec-" ++ Py.zfill 3 (Py.str a2) ++ "_" ++ s2 ++ "_"
               ++ Py.zfill 3 (Py.str m2) ++ energy_suffix e2 ++ ".endf")
      by congruence.
    rewrite Heq in D1. congruence.
Qed.

Lemma encoders_injective_witness :
  (27, 60, 1) = (27, 60, 1).
Proof.
  exact (proj1 (encoders_injective (E := periodic) 27 60 1 27 60 1 "Co60m1"
                  ltac:(lia) ltac:(lia)) eq_refl eq_refl).
Defined.

(** X8.  [nuclear_data_from_filename] checks neither the first four
    characters nor what follows the mass field: two file names with the
    same number and mass fields decode alike, whatever their prefix, their
    symbol and their extension are. *)
Theorem prefix_and_extension_unchecked
    (p p' za sym sym' body tail tail' : string) :
  String.length p = 4%nat -> no_char "_" p = true ->
  String.length p' = 4%nat -> no_char "_" p' = true ->
  (3 <= String.length za)%nat -> no_char "_" za = true ->
  no_char "_" sym = true -> no_char "_" sym' = true ->
  no_char "_" body = true -> no_char "." body = true ->
  ends_field tail -> ends_field tail' ->
  nuclear_data_from_filename (p ++ za ++ "_" ++ sym ++ "_" ++ body ++ tail)
  = nuclear_data_from_filename (p' ++ za ++ "_" ++ sym' ++ "_" ++ body ++ tail').
Proof.
  intros. now rewrite !decode_fields.
Qed.

Lemma prefix_and_extension_unchecked_witness :
  nuclear_data_from_filename "dec-027_Co_060m1.endf"
  = nuclear_data_from_filename "abcd027_Xx_060m1".
Proof.
  apply (prefix_and_extension_unchecked "dec-" "abcd" "027" "Co" "Xx" "060m1"
           ".endf" EmptyString);
    try reflexivity; try (simpl; lia); try exact I. now left.
Defined.

Lemma drop_all n s : (String.length s <= n)%nat -> Py.drop n s = EmptyString.
Proof.
  revert s; induction n as [|n IH]; intros s H.
  - destruct s; [reflexivity | simpl in H; lia].
  - destruct s as [|c s]; [reflexivity|]. cbn [Py.drop]. apply IH.
    simpl in H; lia.
Qed.

(** X9.  What [nuclear_data_from_filename] raises on a name that is not a
    file name: the conversion error of [int] on the empty string when the
    name has at most four characters, and IndexError when the three
    characters read as a number but the name has fewer than two
    underscores. *)
Theorem filename_decoder_errors (filename : string) :
  ((String.length filename <= 4)%nat ->
   nuclear_data_from_filename filename = Raise (IntValueError EmptyString)) /\
  (forall a,
     Py.int (Py.slice 4 7 filename) = Ok a ->
     (count_char "_" filename < 2)%nat ->
     nuclear_data_from_filename filename = Raise IndexError).
Proof.
  unfold nuclear_data_from_filename. split.
  - intros Hlen. unfold Py.slice. rewrite drop_all by exact Hlen. reflexivity.
  - intros a Ha Hcount. rewrite Ha. cbn [bind].
    rewrite PyMore.index_out_of_range; [reflexivity|].
    rewrite PyMore.split_length. lia.
Qed.

Lemma filename_decoder_errors_witness :
  nuclear_data_from_filename "dec-" = Raise (IntValueError EmptyString) /\
  nuclear_data_from_filename "dec-027-Co-060.endf" = Raise IndexError.
Proof.
  split.
  - apply (proj1 (filename_decoder_errors "dec-")). simpl; lia.
  - apply (proj2 (filename_decoder_errors "dec-027-Co-060.endf") 27);
      [reflexivity | simpl; lia].
Defined.

(** ** The constructor: what it reads and what it raises *)

Section Scans.

(** Too few pieces on the half-life line. *)
Lemma half_life_pieces_missing line :
  (count_char " " line < 3)%nat ->
  (decay_rate_word <- Py.index (Py.split " " line) 2 ;;
   decay_rate_unit <- Py.index (Py.split " " line) 3 ;;
   Ok (decay_rate_word, decay_rate_unit)) = Raise IndexError.
Proof.
  intros H.
  assert (H3 : Py.index (Py.split " " line) 3 = Raise IndexError).
  { apply PyMore.index_out_of_range. rewrite PyMore.split_length. lia. }
  rewrite H3. unfold Py.index.
  destruct (nth_error (Py.split " " line) 2); reflexivity.
Qed.

End Scans.

(** X10.  The first line that starts with the marker decides: the lines
    after it are not looked at, neither for the half-life nor for the decay
    mode, also when they start with the marker too. *)
Theorem first_marker_line_decides (pre post post' : list string) (line : string) :
  ((forall l, In l pre -> Py.slice 0 16 l <> "Parent half-life") ->
   Py.slice 0 16 line = "Parent half-life" ->
   find_half_life (pre ++ line :: post) = find_half_life (pre ++ line :: post')) /\
  ((forall l, In l pre -> Py.slice 0 10 l <> "Decay Mode") ->
   Py.slice 0 10 line = "Decay Mode" ->
   find_decay_mode (pre ++ line :: post) = find_decay_mode (pre ++ line :: post')).
Proof.
  split; intros Hpre Hline.
  - rewrite !find_half_life_first by exact Hpre.
    rewrite Hline. reflexivity.
  - rewrite !find_decay_mode_first by exact Hpre.
    rewrite Hline. reflexivity.
Qed.

Lemma first_marker_line_decides_witness :
  find_half_life ["header" ++ nl; "Parent half-life: 5.2714 Y 5" ++ nl;
                  "Parent half-life: STABLE  " ++ nl]
  = find_half_life ["header" ++ nl; "Parent half-life: 5.2714 Y 5" ++ nl].
Proof.
  apply (proj1 (first_marker_line_decides ["header" ++ nl]
                  ["Parent half-life: STABLE  " ++ nl] []
                  ("Parent half-life: 5.2714 Y 5" ++ nl))).
  - intros l [<-|[]]. discriminate.
  - reflexivity.
Defined.

(** X11.  Short marker lines escape as IndexError, not as ValueError: the
    constructor raises IndexError when the first half-life line has fewer
    than three spaces (as a line that ends right after STABLE has), and
    when, for a parent that is not stable, the first decay-mode line has
    fewer than three whitespace-separated words. *)
Theorem short_marker_line_index_error {E : ElementInfo} {F : PyFloat}
    (fs : string -> option (list string)) (name : string) (prefix : option string)
    (a m e : Z) (fn : string) (lines : list string) :
  nuclear_data_from_name name = Ok (a, m, e) ->
  filename_from_isomer_name name = Ok fn ->
  fs (resolve_path prefix fn) = Some lines ->
  (forall (pre : list string) (line : string) (post : list string),
     lines = (pre ++ line :: post)%list ->
     (forall l, In l pre -> Py.slice 0 16 l <> "Parent half-life") ->
     Py.slice 0 16 line = "Parent half-life" ->
     (count_char " " line < 3)%nat ->
     IsomerData_init fs name prefix = Raise IndexError) /\
  (forall word unit rate0 (pre : list string) (line : string) (post : list string),
     find_half_life lines = Ok (word, unit) ->
     word <> "STABLE" ->
     half_life_rate word = Ok rate0 ->
     In unit half_life_units ->
     lines = (pre ++ line :: post)%list ->
     (forall l, In l pre -> Py.slice 0 10 l <> "Decay Mode") ->
     Py.slice 0 10 line = "Decay Mode" ->
     (List.length (Py.split_ws line) < 3)%nat ->
     IsomerData_init fs name prefix = Raise IndexError).
Proof.
  intros Hname Hfn Hfile.
  pose proof (init_lines fs name prefix a m e fn lines Hname Hfn Hfile) as Hinit.
  split.
  - intros pre line post -> Hpre Hline Hcount.
    rewrite Hinit, find_half_life_first by exact Hpre.
    rewrite Hline, String.eqb_refl.
    rewrite half_life_pieces_missing by exact Hcount. reflexivity.
  - intros word unit rate0 pre line post Hhl Hword Hrate Hunit -> Hpre Hline Hlen.
    rewrite Hinit, Hhl. cbn [bind].
    destruct (String.eqb_spec word "STABLE") as [|_]; [contradiction|].
    rewrite Hrate. cbn [bind].
    destruct (scale_by_unit_known rate0 unit Hunit) as [rate ->]. cbn [bind].
    rewrite find_decay_mode_first by exact Hpre.
    rewrite Hline, String.eqb_refl.
    rewrite PyMore.index_out_of_range by lia. reflexivity.
Qed.

Lemma short_marker_line_index_error_witness :
  IsomerData_init (E := periodic) (F := symbolic_float)
    (one_file "dec-027_Co_059.endf" ("Parent half-life: STABLE" ++ nl))
    "Co59" None
  = Raise IndexError.
Proof.
  apply (proj1 (short_marker_line_index_error (E := periodic) (F := symbolic_float)
           (one_file "dec-027_Co_059.endf" ("Parent half-life: STABLE" ++ nl))
           "Co59" None 27 59 0 "dec-027_Co_059.endf"
           ["Parent half-life: STABLE" ++ nl] eq_refl eq_refl eq_refl)
         [] ("Parent half-life: STABLE" ++ nl) []).
  - reflexivity.
  - intros l [].
  - reflexivity.
  - simpl; lia.
Defined.

(** X12.  The constructor reads one file and nothing else.  A name that
    does not decode fails with the decoder's error whatever the file system
    holds; a missing file raises the error of [open] for the resolved path;
    and two file systems that agree on that path give the same result. *)
Theorem one_file_read {E : ElementInfo} {F : PyFloat}
    (fs fs' : string -> option (list string)) (name : string)
    (prefix : option string) :
  (forall ex, nuclear_data_from_name name = Raise ex ->
     IsomerData_init fs name prefix = Raise ex) /\
  (forall fn, filename_from_isomer_name name = Ok fn ->
     fs (resolve_path prefix fn) = None ->
     IsomerData_init fs name prefix = Raise (FileError (resolve_path prefix fn))) /\
  ((forall fn, filename_from_isomer_name name = Ok fn ->
      fs (resolve_path prefix fn) = fs' (resolve_path prefix fn)) ->
   IsomerData_init fs name prefix = IsomerData_init fs' name prefix).
Proof.
  unfold IsomerData_init. split; [|split].
  - intros ex ->. reflexivity.
  - intros fn Hfn Hnone.
    destruct (nuclear_data_from_name name) as [[[a m] e]|ex] eqn:Hname.
    + cbn [bind]. rewrite Hfn. cbn [bind]. unfold open_readlines.
      rewrite Hnone. reflexivity.
    + unfold filename_from_isomer_name in Hfn. rewrite Hname in Hfn.
      discriminate Hfn.
  - intros Hsame.
    destruct (nuclear_data_from_name name) as [[[a m] e]|ex]; [|reflexivity].
    cbn [bind].
    destruct (filename_from_isomer_name name) as [fn|ex]; [|reflexivity].
    cbn [bind]. unfold open_readlines. rewrite (Hsame fn eq_refl). reflexivity.
Qed.

Lemma one_file_read_witness :
  IsomerData_init (E := periodic) (F := symbolic_float)
    (one_file "dec-027_Co_060.endf" "Parent half-life: STABLE  ") "Co59" (Some "data")
  = Raise (FileError "data/dec-027_Co_059.endf").
Proof.
  apply (proj1 (proj2 (one_file_read (E := periodic) (F := symbolic_float)
           (one_file "dec-027_Co_060.endf" "Parent half-life: STABLE  ")
           (fun _ => None) "Co59" (Some "data")))
         "dec-027_Co_059.endf"); reflexivity.
Defined.

(** X13.  What every constructed record holds: the name it was built
    from, the nuclear data that name decodes to, a non-negative mass, and
    either the stable values (rate 0.0, no change) or one of the three
    pairs of changes. *)
Theorem record_invariant {E : ElementInfo} {F : PyFloat}
    (fs : string -> option (list string)) (name : string) (prefix : option string)
    (r : IsomerData) :
  IsomerData_init fs name prefix = Ok r ->
  isomer_name r = name /\
  nuclear_data_from_name name = Ok (atomic_number r, atomic_mass r, energy_state r) /\
  0 <= atomic_mass r /\
  ((stable r = true /\ decay_rate r = float_zero /\
    decay_atomic_number_change r = 0 /\ decay_atomic_mass_change r = 0) \/
   (stable r = false /\
    ((decay_atomic_number_change r = -2 /\ decay_atomic_mass_change r = -4) \/
     (decay_atomic_number_change r = 1 /\ decay_atomic_mass_change r = 0) \/
     (decay_atomic_number_change r = -1 /\ decay_atomic_mass_change r = 0)))).
Proof.
  intros Hinit. unfold IsomerData_init in Hinit.
  bind_ok Hinit as [[a m] e] Hname.
  destruct (nuclear_data_from_name_ok _ _ _ _ Hname) as [Hm _].
  bind_ok Hinit as fn Hfn.
  bind_ok Hinit as lines Hopen.
  bind_ok Hinit as [word unit] Hhl.
  destruct (String.eqb word "STABLE").
  - injection Hinit as <-. cbn. repeat split; try assumption. left. auto.
  - bind_ok Hinit as rate0 Hrate0.
    bind_ok Hinit as rate Hrate.
    bind_ok Hinit as mode Hmode.
    bind_ok Hinit as [dz dm] Hchanges.
    injection Hinit as <-. cbn. repeat split; try assumption. right.
    split; [reflexivity|].
    destruct (decay_changes_ok mode dz dm Hchanges)
      as [(_ & -> & ->)|[(_ & -> & ->)|(_ & -> & ->)]]; auto.
Qed.

Lemma record_invariant_witness :
  let r := mkIsomerData (F := symbolic_float) "Co60" 27 60 0 false
             (FDiv (FLn2Over (FDec 52714 4)) (FInt 31536000)) 1 0 in
  isomer_name r = "Co60" /\
  nuclear_data_from_name (E := periodic) "Co60" = Ok (27, 60, 0).
Proof.
  intros r.
  destruct (record_invariant (E := periodic) (F := symbolic_float)
              (one_file "dec-027_Co_060.endf"
                 ("Parent half-life: 5.2714 Y 5" ++ nl ++ "Decay Mode: B-" ++ nl))
              "Co60" None r eq_refl) as (H1 & H2 & _).
  split; [exact H1 | exact H2].
Defined.

(** X14.  The daughter name leads on: when it is built and the mass left
    is not negative, it decodes to the shifted atomic number and mass at
    energy state 0, and its file name is the one encoded from them. *)
Theorem daughter_name_decodes {E : ElementInfo} {L : ElementInfoLaws E}
    {F : PyFloat} (r : IsomerData) (daughter : string) :
  daughter_name r = Ok daughter ->
  0 <= atomic_mass r + decay_atomic_mass_change r ->
  nuclear_data_from_name daughter
  = Ok (atomic_number r + decay_atomic_number_change r,
        atomic_mass r + decay_atomic_mass_change r, 0) /\
  filename_from_isomer_name daughter
  = filename_from_nuclear_data
      (atomic_number r + decay_atomic_number_change r)
      (atomic_mass r + decay_atomic_mass_change r) 0.
Proof.
  intros Hd Hm. unfold daughter_name in Hd.
  destruct (isomer_name_known _ _ _ _ Hd) as [sym Hsym].
  rewrite (isomer_name_from_nuclear_data_eq _ _ _ _ Hsym) in Hd.
  pose proof (decode_encoded_name sym _ _ 0 (symbol_no_numeric _ _ Hsym)
                (symbol_number _ _ Hsym) Hm) as Hdec.
  assert (Heq : daughter =
    sym ++ Py.str (atomic_mass r + decay_atomic_mass_change r) ++ energy_suffix 0)
    by (injection Hd as H; exact (eq_sym H)).
  rewrite Heq. split; [exact Hdec|].
  unfold filename_from_isomer_name. rewrite Hdec. reflexivity.
Qed.

Lemma daughter_name_decodes_witness :
  nuclear_data_from_name (E := periodic) "Th234" = Ok (90, 234, 0) /\
  filename_from_isomer_name (E := periodic) "Th234" = Ok "dec-090_Th_234.endf".
Proof.
  exact (daughter_name_decodes (E := periodic) (F := symbolic_float)
           (mkIsomerData "U238" 92 238 0 false (FInt 1) (-2) (-4)) "Th234"
           eq_refl ltac:(simpl; lia)).
Defined.

(** X15.  [instance_from_filename] goes through the name: for a triple in
    the supported range it builds the record of the encoded name and reads
    the very file name that was encoded; and every other file name that
    decodes to the same triple (another prefix, symbol or extension) loads
    that same file. *)
Theorem instance_from_filename_canonical {E : ElementInfo} {L : ElementInfoLaws E}
    {F : PyFloat} (fs : string -> option (list string)) (prefix : option string)
    (a m e : Z) (symbol : string) :
  get_element_symbol_from_atomic_number a = Some symbol ->
  0 <= a < 1000 -> 0 <= m ->
  exists filename name,
    filename_from_nuclear_data a m e = Ok filename /\
    isomer_name_from_nuclear_data a m e = Ok name /\
    filename_from_isomer_name name = Ok filename /\
    instance_from_filename fs filename prefix = IsomerData_init fs name prefix /\
    forall other,
      nuclear_data_from_filename other = Ok (a, m, e) ->
      instance_from_filename fs other prefix = IsomerData_init fs name prefix.
Proof.
  intros Hsym Ha Hm.
  pose proof (filename_from_nuclear_data_eq a m e symbol Hsym) as Hfn.
  pose proof (isomer_name_from_nuclear_data_eq a m e symbol Hsym) as Hname.
  pose proof (decode_encoded_name symbol a m e (symbol_no_numeric _ _ Hsym)
                (symbol_number _ _ Hsym) Hm) as Hdec.
  pose proof (decode_encoded_filename symbol a m e
                (symbol_no_underscore _ _ Hsym) (proj1 Ha) Hm) as Hdecf.
  rewrite int_take3_zfill in Hdecf by exact Ha. cbn [bind] in Hdecf.
  assert (Hother : forall other,
    nuclear_data_from_filename other = Ok (a, m, e) ->
    instance_from_filename fs other prefix
    = IsomerData_init fs (symbol ++ Py.str m ++ energy_suffix e) prefix).
  { intros other Ho. unfold instance_from_filename, isomer_name_from_filename.
    rewrite Ho. cbn [bind]. rewrite Hname. reflexivity. }
  eexists; eexists. split; [exact Hfn|]. split; [exact Hname|].
  split; [|split].
  - unfold filename_from_isomer_name. rewrite Hdec. exact Hfn.
  - apply Hother. exact Hdecf.
  - exact Hother.
Qed.

Lemma instance_from_filename_canonical_witness :
  let fs := one_file "dec-027_Co_059.endf" ("Parent half-life: STABLE  " ++ nl) in
  instance_from_filename (E := periodic) (F := symbolic_float) fs
    "abcd027_Xx_059.txt" None
  = IsomerData_init (E := periodic) (F := symbolic_float) fs "Co59" None.
Proof.
  intros fs.
  destruct (instance_from_filename_canonical (E := periodic) (F := symbolic_float)
              fs None 27 59 0 "Co" eq_refl ltac:(lia) ltac:(lia))
    as (filename & name & _ & Hname & _ & _ & Hother).
  injection Hname as <-. apply Hother. reflexivity.
Defined.

Section Paths.
Import Py PyFacts.

Lemma ends_with_slash_app d : ends_with_slash (d ++ "/") = true.
Proof.
  unfold ends_with_slash. rewrite length_app. cbn [String.length].
  replace (String.length d + 1 - 1)%nat with (String.length d) by lia.
  rewrite drop_app. reflexivity.
Qed.

Lemma app_slash_not_empty d : d ++ "/" <> EmptyString.
Proof. destruct d; discriminate. Qed.

End Paths.

(** X16.  How the file is resolved: without a prefix, and with an empty
    one, the file name is used alone; a directory with and without its
    final slash gives the same path.  This holds for every file name that
    does not start with a slash, as the encoded ones do not. *)
Theorem path_resolution (filename directory : string) :
  (forall r, filename <> String "/" r) ->
  resolve_path None filename = filename /\
  resolve_path (Some EmptyString) filename = filename /\
  resolve_path (Some (directory ++ "/")) filename = directory ++ "/" ++ filename /\
  (directory <> EmptyString -> Py.ends_with_slash directory = false ->
   resolve_path (Some directory) filename = directory ++ "/" ++ filename).
Proof.
  intros Hrel.
  assert (Hjoin : forall a, a <> EmptyString ->
    Py.os_path_join a filename
    = if Py.ends_with_slash a then a ++ filename else a ++ "/" ++ filename).
  { intros a Ha. unfold Py.os_path_join.
    destruct filename as [|c f]; [now destruct a|].
    destruct (Ascii.eqb_spec c "/") as [->|Hc];
      [now destruct (Hrel f)|].
    destruct a as [|x a]; [contradiction|].
    destruct c as [[] [] [] [] [] [] [] []]; try reflexivity.
    now destruct Hc. }
  cbn [resolve_path]. repeat split.
  - unfold Py.os_path_join. destruct filename as [|c f]; [reflexivity|].
    destruct c as [[] [] [] [] [] [] [] []]; reflexivity.
  - rewrite Hjoin by apply app_slash_not_empty.
    rewrite ends_with_slash_app. now rewrite PyFacts.append_assoc.
  - intros Hd Hslash. rewrite Hjoin by exact Hd. now rewrite Hslash.
Qed.

Lemma path_resolution_witness :
  resolve_path (Some "data/") "dec-027_Co_060.endf" = "data/dec-027_Co_060.endf" /\
  resolve_path (Some "data") "dec-027_Co_060.endf" = "data/dec-027_Co_060.endf".
Proof.
  destruct (path_resolution "dec-027_Co_060.endf" "data") as (_ & _ & H1 & H2).
  - intros r H. discriminate H.
  - split; [exact H1 | apply H2; [discriminate | reflexivity]].
Defined.
